(** * AutomationZ Restart Loop Guard: the decision core, embedded and verified

    The guard of [AutomationZ_Restart_Loop_Guard/app/main.py] is embedded
    function by function.  Files, the dashboard and the outbound webhook are
    fields of one [World] record that the operations thread through a small
    state-and-exception monad; what the program cannot decide by itself
    (host name, local-time formatting, the network) is an [Env] record.
    Reads and writes of files succeed; the one source of exceptions besides
    [int] on a text that is no integer is the POST.  Of the widgets only
    what they show is kept. *)

From Stdlib Require Import ZArith List String Ascii Bool Lia DecimalString.
From Stdlib Require DecimalPos.
Import ListNotations.
Local Open Scope string_scope.
Local Open Scope list_scope.
Local Open Scope Z_scope.

(** ** Python text and list helpers

    A Python [str] is a [string] holding one character per [ascii] (code
    points below 256).  *)
Module Py.

(** [str.isspace] on one character, for code points below 256. *)
Definition is_space (c : ascii) : bool :=
  let n := nat_of_ascii c in
  (((9 <=? n) && (n <=? 13)) || ((28 <=? n) && (n <=? 32))
   || (n =? 133) || (n =? 160))%nat.

Fixpoint lstrip (s : string) : string :=
  match s with
  | EmptyString => EmptyString
  | String c r => if is_space c then lstrip r else s
  end.

Fixpoint rstrip (s : string) : string :=
  match s with
  | EmptyString => EmptyString
  | String c r =>
      match rstrip r with
      | EmptyString => if is_space c then EmptyString else String c EmptyString
      | r' => String c r'
      end
  end.

(** [s.strip()] *)
Definition strip (s : string) : string := rstrip (lstrip s).

(** Truth value of a [str]: [not s] holds for the empty text only. *)
Definition is_empty (s : string) : bool :=
  match s with EmptyString => true | String _ _ => false end.

Definition is_digit (c : ascii) : bool :=
  let n := nat_of_ascii c in ((48 <=? n) && (n <=? 57))%nat.

Definition digit_value (c : ascii) : Z := Z.of_nat (nat_of_ascii c) - 48.

(** The digit part of an integer literal: decimal digits, where single
    underscores may stand between two digits. [after_digit] records that
    the previous character was a digit. *)
Fixpoint int_digits (acc : Z) (after_digit : bool) (s : string) : option Z :=
  match s with
  | EmptyString => if after_digit then Some acc else None
  | String c r =>
      if is_digit c then int_digits (10 * acc + digit_value c) true r
      else if (Ascii.eqb c "_" && after_digit)%bool then int_digits acc false r
      else None
  end.

(** [int(s)] for a text [s] in base 10: surrounding white space is
    dropped, one sign is allowed; [None] stands for [ValueError].  (The
    interpreter's cap on the number of digits is left out.) *)
Definition int (s : string) : option Z :=
  match strip s with
  | String "-" r => option_map Z.opp (int_digits 0 false r)
  | String "+" r => int_digits 0 false r
  | r => int_digits 0 false r
  end.

(** [s.split(sep)] for a one-character separator. *)
Fixpoint split (sep : ascii) (s : string) : list string :=
  match s with
  | EmptyString => [EmptyString]
  | String c r =>
      if Ascii.eqb c sep then EmptyString :: split sep r
      else match split sep r with
           | [] => [String c EmptyString]
           | x :: xs => String c x :: xs
           end
  end.

(** [str(n)] and [f"{n}"] for an integer. *)
Definition str (n : Z) : string := NilZero.string_of_int (Z.to_int n).

(** [sep.join(parts)] *)
Fixpoint join (sep : string) (parts : list string) : string :=
  match parts with
  | [] => EmptyString
  | [x] => x
  | x :: rest => x ++ sep ++ join sep rest
  end.

(** [l[-n:]] for [n > 0]: the last [n] items, all of them when there are fewer. *)
Definition last_items {A} (n : nat) (l : list A) : list A :=
  skipn (List.length l - n) l.

(** [s[-n:]] for [n > 0]. *)
Definition last_chars (n : nat) (s : string) : string :=
  substring (String.length s - n) n s.

End Py.

(** ** Data model *)

(** [Status.state] takes one of three texts. *)
Inductive State := OK | WARNING | LOCKED.

(** The [Status] dataclass. *)
Record Status := mkStatus {
  state : State;
  message : string;
  attempt_count : Z;
  max_attempts : Z;
  window_seconds : Z;
  timestamps : list Z
}.

(** [notify.extra_context]; [None] is a missing key. *)
Record ExtraContext := mkExtra {
  server_name : option string;
  host : option string;
  notes : option string
}.

(** The [notify] block of the configuration; [None] is a missing key. *)
Record Notify := mkNotify {
  enabled : option bool;
  discord_webhook_url : option string;
  include_last_lines : option Z;
  extra_context : option ExtraContext
}.

(** The configuration document.  Every key may be missing ([None]); the
    code reads each through [dict.get] with a default.  For [notify],
    [None] also stands for a value that is not an object. *)
Record Config := mkConfig {
  cfg_max_attempts : option Z;
  cfg_time_window_seconds : option Z;
  cfg_backoff_seconds : option (list Z);
  cfg_state_file : option string;
  cfg_lock_file : option string;
  cfg_incident_file : option string;
  cfg_log_file : option string;
  cfg_notify : option Notify
}.

(** What [make_incident] returns. *)
Record Incident := mkIncident {
  inc_version : string;
  inc_time : string;
  inc_timestamp : Z;
  inc_state : State;
  inc_message : string;
  inc_attempt_count : Z;
  inc_max_attempts : Z;
  inc_window_seconds : Z;
  inc_attempt_timestamps : list Z;
  inc_host : string * string;
  inc_automationz : ExtraContext
}.

(** The parts the alert text of [_maybe_notify] is put together from. *)
Record Alert := mkAlert {
  alert_reason : string;
  alert_attempts : Z;
  alert_window : Z;
  alert_host : string;
  alert_server : option string;
  alert_server_host : option string;
  alert_notes : option string;
  alert_log_lines : option string
}.

(** A raised exception, with what [str(e)] and [repr(e)] give. *)
Record Exn := mkExn { exn_str : string; exn_repr : string }.

(** A message box. *)
Inductive Dialog :=
| ShowInfo (title text : string)
| ShowError (title text : string).

(** The entry fields of the "Config" box. *)
Record Form := mkForm {
  var_max : string;
  var_window : string;
  var_backoff : string;
  var_notify_enabled : bool;
  var_webhook : string
}.

(** What the dashboard shows after [refresh_status]: badge, labels and
    history list all come from one [Status]; the log pane holds a tail. *)
Record Dashboard := mkDashboard {
  shown : Status;
  log_pane : string
}.

(** Everything outside the program's control. *)
Record Env := mkEnv {
  hostname : string;                          (* socket.gethostname() *)
  fqdn : string;                              (* socket.getfqdn() *)
  iso : Z -> string;                          (* local time of an epoch second, ISO 8601 *)
  urlopen : string -> Alert -> option Exn;    (* the POST: [Some e] when it raises [e] *)
  int_error : string -> Exn                   (* the ValueError of int() on a text *)
}.

(** The program state: the clock, the [App] object and the files.
    [state_file = None] is a ledger file that is missing, unreadable or not
    a JSON array; [lock_file] is the existence of the lock marker;
    [log_file] is the audit log, line by line; [outbox] lists the POSTs
    attempted so far, oldest first. *)
Record World := mkWorld {
  clock : Z;
  cfg : Config;
  vars : Form;
  config_file : option Config;
  state_file : option (list Z);
  lock_file : bool;
  incident_file : option Incident;
  log_file : list string;
  outbox : list (string * Alert);
  dashboard : option Dashboard
}.

Definition set_clock (t : Z) (w : World) : World :=
  mkWorld t (cfg w) (vars w) (config_file w) (state_file w) (lock_file w)
          (incident_file w) (log_file w) (outbox w) (dashboard w).

Definition set_cfg (c : Config) (w : World) : World :=
  mkWorld (clock w) c (vars w) (config_file w) (state_file w) (lock_file w)
          (incident_file w) (log_file w) (outbox w) (dashboard w).

Definition set_config_file (c : option Config) (w : World) : World :=
  mkWorld (clock w) (cfg w) (vars w) c (state_file w) (lock_file w)
          (incident_file w) (log_file w) (outbox w) (dashboard w).

Definition set_state_file (h : option (list Z)) (w : World) : World :=
  mkWorld (clock w) (cfg w) (vars w) (config_file w) h (lock_file w)
          (incident_file w) (log_file w) (outbox w) (dashboard w).

Definition set_lock_file (b : bool) (w : World) : World :=
  mkWorld (clock w) (cfg w) (vars w) (config_file w) (state_file w) b
          (incident_file w) (log_file w) (outbox w) (dashboard w).

Definition set_incident_file (i : option Incident) (w : World) : World :=
  mkWorld (clock w) (cfg w) (vars w) (config_file w) (state_file w) (lock_file w)
          i (log_file w) (outbox w) (dashboard w).

Definition set_log_file (l : list string) (w : World) : World :=
  mkWorld (clock w) (cfg w) (vars w) (config_file w) (state_file w) (lock_file w)
          (incident_file w) l (outbox w) (dashboard w).

Definition set_outbox (o : list (string * Alert)) (w : World) : World :=
  mkWorld (clock w) (cfg w) (vars w) (config_file w) (state_file w) (lock_file w)
          (incident_file w) (log_file w) o (dashboard w).

Definition set_dashboard (d : option Dashboard) (w : World) : World :=
  mkWorld (clock w) (cfg w) (vars w) (config_file w) (state_file w) (lock_file w)
          (incident_file w) (log_file w) (outbox w) d.

(** ** The monad: state that survives a raised exception *)

Definition M (A : Type) : Type := World -> (Exn + A) * World.

Definition ret {A} (a : A) : M A := fun w => (inr a, w).

Definition bind {A B} (m : M A) (f : A -> M B) : M B :=
  fun w => match m w with
           | (inl e, w') => (inl e, w')
           | (inr a, w') => f a w'
           end.

Definition raise {A} (e : Exn) : M A := fun w => (inl e, w).

(** [try: m  except Exception as e: h e] *)
Definition try_except {A} (m : M A) (h : Exn -> M A) : M A :=
  fun w => match m w with
           | (inl e, w') => h e w'
           | (inr a, w') => (inr a, w')
           end.

Definition gets {A} (f : World -> A) : M A := fun w => (inr (f w), w).

Definition modify (f : World -> World) : M unit := fun w => (inr tt, f w).

Notation "x <- c1 ;; c2" := (bind c1 (fun x => c2))
  (at level 61, c1 at next level, right associativity).
Notation "c1 ;; c2" := (bind c1 (fun _ => c2))
  (at level 61, right associativity).

(** The world an operation leaves behind, and whether it returned. *)
Definition world_after {A} (r : (Exn + A) * World) : World := snd r.

Definition returned {A} (r : (Exn + A) * World) : option A :=
  match fst r with inr a => Some a | inl _ => None end.

(** ** The guard *)

Section Guard.

Variable env : Env.

(** [_now_ts()]: the clock, read in whole seconds. *)
Definition _now_ts : M Z := gets clock.

(** [_iso(ts)]; [None] reads the clock. *)
Definition _iso (ts : option Z) : M string :=
  match ts with
  | None => now <- gets clock ;; ret (iso env now)
  | Some t => ret (iso env t)
  end.

(** [load_json(self.state_file, default=[])] with the [isinstance(history, list)] test after it. *)
Definition load_history : M (list Z) :=
  gets (fun w => match state_file w with Some h => h | None => [] end).

(** [save_json(self.state_file, data)] *)
Definition save_history (data : list Z) : M unit :=
  modify (set_state_file (Some data)).

(** [save_json(self.incident_file, data)] *)
Definition save_incident (data : Incident) : M unit :=
  modify (set_incident_file (Some data)).

(** [save_json(CONFIG_FILE, data)] *)
Definition save_config (data : Config) : M unit :=
  modify (set_config_file (Some data)).

(** [append_log(self.log_file, msg)]: one line, [[time] msg]. *)
Definition append_log (msg : string) : M unit :=
  stamp <- _iso None ;;
  modify (fun w => set_log_file (log_file w ++ [("[" ++ stamp ++ "] " ++ msg)%string]) w).

(** [tail_file(self.log_file, n)], on the lines of the log; a log file
    that does not exist is a log without lines. *)
Definition tail_file (lines : list string) (n : Z) : string :=
  if (n <=? 0) || match lines with [] => true | _ => false end
  then EmptyString
  else Py.join (String "010" EmptyString) (Py.last_items (Z.to_nat n) lines).

(** [post_discord(webhook_url, content)] *)
Definition post_discord (webhook_url : string) (content : Alert) : M unit :=
  if Py.is_empty webhook_url then ret tt
  else
    modify (fun w => set_outbox (outbox w ++ [(webhook_url, content)]) w) ;;
    match urlopen env webhook_url content with
    | Some e => raise e
    | None => ret tt
    end.

(** [int(cfg.get("max_attempts", 3))] *)
Definition get_max_attempts (c : Config) : Z :=
  match cfg_max_attempts c with Some m => m | None => 3 end.

(** [int(cfg.get("time_window_seconds", 300))] *)
Definition get_window (c : Config) : Z :=
  match cfg_time_window_seconds c with Some s => s | None => 300 end.

(** The list comprehension of [compute_status]. *)
Definition windowed (window now : Z) (history : list Z) : list Z :=
  filter (fun t => now - t <=? window) history.

Definition compute_status (c : Config) (history : list Z) (now : Z) (locked : bool) : Status :=
  let max_attempts := get_max_attempts c in
  let window := get_window c in
  let windowed := windowed window now history in
  let count := Z.of_nat (List.length windowed) in
  if locked then
    mkStatus LOCKED "Restart loop locked. Manual unlock required."
             count max_attempts window windowed
  else if Z.max 1 (max_attempts - 1) <=? count then
    mkStatus WARNING
             ("Near threshold: " ++ Py.str count ++ "/" ++ Py.str max_attempts
              ++ " within " ++ Py.str window ++ "s.")
             count max_attempts window windowed
  else
    mkStatus OK
             ("Normal: " ++ Py.str count ++ "/" ++ Py.str max_attempts
              ++ " within " ++ Py.str window ++ "s.")
             count max_attempts window windowed.

Definition empty_extra : ExtraContext := mkExtra None None None.

Definition empty_notify : Notify := mkNotify None None None None.

(** [cfg.get("notify", {})], an empty object when it is not one. *)
Definition get_notify (c : Config) : Notify :=
  match cfg_notify c with Some n => n | None => empty_notify end.

(** [notify.get("extra_context", {})] *)
Definition get_extra (n : Notify) : ExtraContext :=
  match extra_context n with Some x => x | None => empty_extra end.

Definition make_incident (c : Config) (status : Status) (now : Z) : Incident :=
  let extra := get_extra (get_notify c) in
  mkIncident "1.1-ui" (iso env now) now
             (state status) (message status) (attempt_count status)
             (max_attempts status) (window_seconds status) (timestamps status)
             (hostname env, fqdn env) extra.

(** [extra.get(key)] used as a condition: a present, non-empty text. *)
Definition truthy (o : option string) : option string :=
  match o with
  | Some s => if Py.is_empty s then None else Some s
  | None => None
  end.

Definition _maybe_notify (status : Status) : M unit :=
  c <- gets cfg ;;
  let notify_cfg := get_notify c in
  if negb (match enabled notify_cfg with Some b => b | None => false end) then ret tt
  else
    let webhook :=
      Py.strip (match discord_webhook_url notify_cfg with Some u => u | None => EmptyString end) in
    if Py.is_empty webhook then append_log "Notify enabled but webhook empty."
    else
      let last_lines := match include_last_lines notify_cfg with Some n => n | None => 40 end in
      let extra := get_extra notify_cfg in
      lines <- gets log_file ;;
      let snippet := tail_file lines last_lines in
      let msg :=
        mkAlert (message status) (attempt_count status) (window_seconds status)
                (hostname env)
                (truthy (server_name extra)) (truthy (host extra)) (truthy (notes extra))
                (if Py.is_empty snippet then None else Some (Py.last_chars 1500 snippet)) in
      try_except
        (post_discord webhook msg ;;
         append_log "Notification sent (Discord).")
        (fun e => append_log ("Notification failed: " ++ exn_repr e)).

(** [_refresh_log] *)
Definition _refresh_log : M string :=
  lines <- gets log_file ;; ret (tail_file lines 80).

(** [refresh_status(record)].  The status it leaves on the dashboard is
    also its result here. *)
Definition refresh_status (record : bool) : M Status :=
  now <- _now_ts ;;
  history <- load_history ;;
  locked <- gets lock_file ;;
  history <-
    (if record && negb locked then
       let history := history ++ [now] in
       save_history history ;;
       append_log "Recorded start attempt (UI)." ;;
       ret history
     else ret history) ;;
  c <- gets cfg ;;
  let status := compute_status c history now locked in
  save_history (timestamps status) ;;
  let max_attempts := get_max_attempts c in
  still_locked <- gets lock_file ;;
  status <-
    (if record && (max_attempts <=? Z.of_nat (List.length (timestamps status)))
        && negb still_locked then
       modify (set_lock_file true) ;;
       let status := compute_status c (timestamps status) now true in
       append_log ("LOCKED (threshold reached). "
                   ++ Py.str (Z.of_nat (List.length (timestamps status))) ++ " in window.") ;;
       save_incident (make_incident c status now) ;;
       _maybe_notify status ;;
       ret status
     else ret status) ;;
  tail <- _refresh_log ;;
  modify (set_dashboard (Some (mkDashboard status tail))) ;;
  ret status.

(** [unlock] *)
Definition unlock : M Dialog :=
  locked <- gets lock_file ;;
  if negb locked then ret (ShowInfo "Unlock" "No lock file present.")
  else
    try_except
      (modify (set_lock_file false) ;;
       append_log "Lock removed (UI)." ;;
       _ <- refresh_status false ;;
       ret (ShowInfo "Unlocked" "Lock removed."))
      (fun e => ret (ShowError "Unlock failed" (exn_str e))).

(** [clear_history]; [confirm] is the answer to the yes/no box, and no
    dialog is the result when it is no. *)
Definition clear_history (confirm : bool) : M (option Dialog) :=
  if negb confirm then ret None
  else
    try_except
      (modify (set_state_file None) ;;
       append_log "History cleared (UI)." ;;
       _ <- refresh_status false ;;
       ret (Some (ShowInfo "Cleared" "Attempt history cleared.")))
      (fun e => ret (Some (ShowError "Clear failed" (exn_str e)))).

(** [int(text)], raising where Python does. *)
Definition int_of (text : string) : M Z :=
  match Py.int text with
  | Some n => ret n
  | None => raise (int_error env text)
  end.

(** The list comprehension of [save_cfg]: [int(x.strip())] for each part
    [x] whose [x.strip()] is not empty. *)
Fixpoint ints_of (parts : list string) : M (list Z) :=
  match parts with
  | [] => ret []
  | x :: rest =>
      if Py.is_empty (Py.strip x) then ints_of rest
      else
        n <- int_of (Py.strip x) ;;
        ns <- ints_of rest ;;
        ret (n :: ns)
  end.

(** [save_cfg] *)
Definition save_cfg : M Dialog :=
  try_except
    (v <- gets vars ;;
     max_a <- int_of (Py.strip (var_max v)) ;;
     win_s <- int_of (Py.strip (var_window v)) ;;
     backoff <- ints_of (Py.split "," (var_backoff v)) ;;
     let notify_enabled := var_notify_enabled v in
     let webhook := Py.strip (var_webhook v) in
     c <- gets cfg ;;
     let n := get_notify c in
     let c' :=
       mkConfig (Some max_a) (Some win_s) (Some backoff)
                (cfg_state_file c) (cfg_lock_file c) (cfg_incident_file c) (cfg_log_file c)
                (Some (mkNotify (Some notify_enabled) (Some webhook)
                                (include_last_lines n) (extra_context n))) in
     modify (set_cfg c') ;;
     save_config c' ;;
     ret (ShowInfo "Saved" "Config saved."))
    (fun e => ret (ShowError "Save failed" (exn_str e))).

(** ** Driving the guard

    The dashboard buttons, pressed at a given clock reading. *)
Inductive Op :=
| Analyze                      (* "Analyze Only" *)
| RecordAttempt                (* "Record Start Attempt" *)
| Unlock                       (* "Unlock" *)
| ClearHistory (confirm : bool) (* "Clear History" *).

Definition press (op : Op) : M unit :=
  match op with
  | Analyze => _ <- refresh_status false ;; ret tt
  | RecordAttempt => _ <- refresh_status true ;; ret tt
  | Unlock => _ <- unlock ;; ret tt
  | ClearHistory confirm => _ <- clear_history confirm ;; ret tt
  end.

(** One button pressed when the clock reads [now]. *)
Definition at_time {A} (now : Z) (m : M A) : M A :=
  modify (set_clock now) ;; m.

Fixpoint run (schedule : list (Z * Op)) : M unit :=
  match schedule with
  | [] => ret tt
  | (now, op) :: rest => at_time now (press op) ;; run rest
  end.

(** [analyze(now)] and [recordAttempt(now)] of the caller-facing interface. *)
Definition analyze (now : Z) : M Status := at_time now (refresh_status false).

Definition recordAttempt (now : Z) : M Status := at_time now (refresh_status true).

(** [recordAttempt] at each reading in turn; the statuses, first call first. *)
Fixpoint record_each (times : list Z) : M (list Status) :=
  match times with
  | [] => ret []
  | now :: rest =>
      s <- recordAttempt now ;;
      ss <- record_each rest ;;
      ret (s :: ss)
  end.

End Guard.

Arguments tail_file : simpl never.
Arguments Py.str : simpl never.
Arguments Py.join : simpl never.
Arguments Py.last_items : simpl never.
Arguments Py.last_chars : simpl never.

(** The ledger as [refresh_status] reads it. *)
Definition ledger (w : World) : list Z :=
  match state_file w with Some h => h | None => [] end.

(** [w'] differs from [w] in the audit log and the outbox at most. *)
Definition same_but_log_outbox (w w' : World) : Prop :=
  w' = set_outbox (outbox w') (set_log_file (log_file w') w).

(** The line [append_log] writes when the clock reads [now]. *)
Definition log_line (env : Env) (now : Z) (msg : string) : string :=
  ("[" ++ iso env now ++ "] " ++ msg)%string.

(** The latest of the clock readings [times]. *)
Definition latest (times : list Z) : Z :=
  fold_right Z.max (hd 0 times) times.

(** No reading is more than [window] seconds before the latest one. *)
Definition within_window (window : Z) (times : list Z) : Prop :=
  Forall (fun t => latest times - t <= window) times.

(** The world [refresh_status(record=True)] has built when the count has
    reached the threshold and the dispatcher is about to run: the attempt
    recorded, the ledger pruned, the marker created, the transition logged
    and the incident written. *)
Definition locking_world (env : Env) (w : World) : World :=
  let now := clock w in
  let c := cfg w in
  let s := compute_status c (ledger w ++ [now]) now true in
  mkWorld now c (vars w) (config_file w) (Some (timestamps s)) true
          (Some (make_incident env c s now))
          (log_file w
           ++ [log_line env now "Recorded start attempt (UI).";
               log_line env now ("LOCKED (threshold reached). "
                                 ++ Py.str (attempt_count s) ++ " in window.")])
          (outbox w) (dashboard w).

(** The alert [_maybe_notify] posts for [status] in world [w]. *)
Definition alert_of (env : Env) (status : Status) (w : World) : Alert :=
  let n := get_notify (cfg w) in
  let extra := get_extra n in
  let snippet :=
    tail_file (log_file w)
              (match include_last_lines n with Some k => k | None => 40 end) in
  mkAlert (message status) (attempt_count status) (window_seconds status)
          (hostname env)
          (truthy (server_name extra)) (truthy (host extra)) (truthy (notes extra))
          (if Py.is_empty snippet then None else Some (Py.last_chars 1500 snippet)).

(** The webhook as [_maybe_notify] reads it. *)
Definition webhook_of (w : World) : string :=
  Py.strip (match discord_webhook_url (get_notify (cfg w)) with
            | Some u => u
            | None => EmptyString
            end).

(** [ints_of] without the monad: the values, or the first text [int] refuses. *)
Fixpoint parse_ints (parts : list string) : string + list Z :=
  match parts with
  | [] => inr []
  | x :: rest =>
      if Py.is_empty (Py.strip x) then parse_ints rest
      else match Py.int (Py.strip x) with
           | None => inl (Py.strip x)
           | Some n =>
               match parse_ints rest with
               | inl bad => inl bad
               | inr ns => inr (n :: ns)
               end
           end
  end.

(** The configuration [save_cfg] stores for the parsed entries. *)
Definition saved_config (c : Config) (max_a win_s : Z) (backoff : list Z) (v : Form) : Config :=
  mkConfig (Some max_a) (Some win_s) (Some backoff)
           (cfg_state_file c) (cfg_lock_file c) (cfg_incident_file c) (cfg_log_file c)
           (Some (mkNotify (Some (var_notify_enabled v)) (Some (Py.strip (var_webhook v)))
                           (include_last_lines (get_notify c))
                           (extra_context (get_notify c)))).

(** ** Concrete surroundings, used to run the guard *)

(** The configuration [_load_cfg] falls back to. *)
Definition default_cfg : Config :=
  mkConfig (Some 3) (Some 300) (Some [0; 60; 180; 300])
           (Some "attempt_history.json") (Some "restart_loop.lock")
           (Some "incident_report.json") (Some "restart_loop.log")
           (Some (mkNotify (Some false) (Some EmptyString) (Some 40)
                           (Some (mkExtra (Some "THE LONG HUNT") (Some EmptyString) (Some EmptyString))))).

(** The same with notifications switched on and a webhook entered. *)
Definition alerting_cfg : Config :=
  mkConfig (Some 3) (Some 300) (Some [0; 60; 180; 300])
           (Some "attempt_history.json") (Some "restart_loop.lock")
           (Some "incident_report.json") (Some "restart_loop.log")
           (Some (mkNotify (Some true) (Some " https://discord.example/api/webhooks/1 ") (Some 40)
                           (Some (mkExtra (Some "THE LONG HUNT") (Some EmptyString) (Some EmptyString))))).

(** Notifications switched on, the webhook left blank. *)
Definition blank_webhook_cfg : Config :=
  mkConfig (Some 3) (Some 300) (Some [0; 60; 180; 300])
           (Some "attempt_history.json") (Some "restart_loop.lock")
           (Some "incident_report.json") (Some "restart_loop.log")
           (Some (mkNotify (Some true) (Some "   ") (Some 40) None)).

Definition timed_out : Exn := mkExn "timed out" "TimeoutError('timed out')".

(** A host whose network is down: every POST raises [timed_out]. *)
Definition offline_env : Env :=
  mkEnv "dayz-host" "dayz-host.lan"
        (fun t => ("epoch " ++ Py.str t)%string)
        (fun _ _ => Some timed_out)
        (fun text => mkExn ("invalid literal for int() with base 10: " ++ text)%string "ValueError").

(** A first start: no ledger, no marker, no incident, an empty log. *)
Definition fresh_world (c : Config) : World :=
  mkWorld 0 c (mkForm "3" "300" "0,60,180,300" false EmptyString) (Some c)
          None false None [] [] None.

(** Two attempts on record, at 0 and 50. *)
Definition two_attempts_world : World :=
  set_state_file (Some [0; 50]) (fresh_world alerting_cfg).

(** Locked after attempts at 0, 50 and 100. *)
Definition locked_world : World :=
  set_lock_file true (set_state_file (Some [0; 50; 100]) (fresh_world default_cfg)).

(** The "Max attempts" entry holds 0. *)
Definition zero_threshold_world : World :=
  mkWorld 0 default_cfg (mkForm "0" "300" "0,60,180,300" false EmptyString) (Some default_cfg)
          None false None [] [] None.

(** The "Max attempts" entry holds a word. *)
Definition bad_threshold_world : World :=
  mkWorld 0 default_cfg (mkForm "three" "300" "0,60,180,300" false EmptyString) (Some default_cfg)
          None false None [] [] None.

(** The status of a lock after three attempts. *)
Definition locked_status : Status :=
  compute_status default_cfg [0; 50; 100] 100 true.

Ltac run_guard :=
  cbv beta iota zeta delta
    [refresh_status unlock clear_history press at_time analyze recordAttempt
     bind gets ret modify raise try_except
     _now_ts _iso load_history save_history save_incident save_config _refresh_log append_log
     clock cfg vars config_file state_file lock_file incident_file log_file outbox dashboard
     set_clock set_cfg set_config_file set_state_file set_lock_file set_incident_file
     set_log_file set_outbox set_dashboard ledger andb negb fst snd].

(** ** More of the program *)

(** [record and not locked] and the threshold test of [refresh_status]:
    whether the call at the clock reading of [w] is the one that locks. *)
Definition locks_now (record : bool) (w : World) : bool :=
  record && negb (lock_file w)
  && (get_max_attempts (cfg w)
      <=? Z.of_nat (List.length (windowed (get_window (cfg w)) (clock w)
                                          (ledger w ++ [clock w])))).

(** [self.cfg.get("backoff_seconds", [0, 60, 180, 300]) or []] *)
Definition get_backoff (c : Config) : list Z :=
  match cfg_backoff_seconds c with Some l => l | None => [0; 60; 180; 300] end.

(** The entries [_load_cfg] puts into the "Config" box for the
    configuration [c] (its statements from [self.var_max.set] on). *)
Definition form_of_cfg (c : Config) : Form :=
  let notify := get_notify c in
  mkForm (Py.str (get_max_attempts c))
         (Py.str (get_window c))
         (Py.join "," (map Py.str (get_backoff c)))
         (match enabled notify with Some b => b | None => false end)
         (match discord_webhook_url notify with Some u => u | None => EmptyString end).

(** Every character of [s] passes [p]. *)
Fixpoint all_chars (p : ascii -> bool) (s : string) : bool :=
  match s with
  | EmptyString => true
  | String c r => p c && all_chars p r
  end.

(** A character of the decimal text of an integer: a digit or the sign. *)
Definition is_int_char (c : ascii) : bool :=
  Py.is_digit c || Ascii.eqb c "-".

(** A threshold of 0, as [save_cfg] stores it when asked to. *)
Definition zero_threshold_cfg : Config :=
  mkConfig (Some 0) (Some 300) (Some [0; 60; 180; 300])
           None None None None None.

(** A window of -5 seconds. *)
Definition negative_window_cfg : Config :=
  mkConfig (Some 3) (Some (-5)) None None None None None None.

(** Attempts at 0 and 10 on record under the negative window. *)
Definition negative_window_world : World :=
  set_state_file (Some [0; 10]) (fresh_world negative_window_cfg).

(** The built-in configuration right after "Reload Config". *)
Definition reloaded_world : World :=
  mkWorld 0 default_cfg (form_of_cfg default_cfg) (Some default_cfg)
          None false None [] [] None.

(** A morning of presses: three attempts lock, a fourth is refused, the
    history is cleared, the dashboard refreshed. *)
Definition busy_morning : list (Z * Op) :=
  [(0, RecordAttempt); (50, RecordAttempt); (100, RecordAttempt);
   (120, RecordAttempt); (130, ClearHistory true); (140, Analyze)].

(** ** Properties of the evaluator *)

Section Evaluator.

Lemma windowed_idem window now h :
  windowed window now (windowed window now h) = windowed window now h.
Proof.
  unfold windowed. induction h as [|t h IH]; simpl; [reflexivity|].
  destruct (now - t <=? window) eqn:E; simpl; [rewrite E, IH|]; auto.
Qed.

Lemma windowed_all window now h :
  Forall (fun t => now - t <= window) h -> windowed window now h = h.
Proof.
  unfold windowed. induction 1 as [|t h Ht _ IH]; simpl; [reflexivity|].
  apply Z.leb_le in Ht. rewrite Ht, IH. reflexivity.
Qed.

Lemma windowed_In window now h t :
  In t (windowed window now h) <-> In t h /\ now - t <= window.
Proof.
  unfold windowed. rewrite filter_In, Z.leb_le. reflexivity.
Qed.

Lemma windowed_app window now h1 h2 :
  windowed window now (h1 ++ h2) = windowed window now h1 ++ windowed window now h2.
Proof. unfold windowed. apply filter_app. Qed.

Lemma timestamps_compute_status c h now locked :
  timestamps (compute_status c h now locked) = windowed (get_window c) now h.
Proof.
  unfold compute_status. destruct locked; [reflexivity|].
  destruct (Z.max 1 (get_max_attempts c - 1) <=? _); reflexivity.
Qed.

Lemma attempt_count_compute_status c h now locked :
  attempt_count (compute_status c h now locked)
  = Z.of_nat (List.length (windowed (get_window c) now h)).
Proof.
  unfold compute_status. destruct locked; [reflexivity|].
  destruct (Z.max 1 (get_max_attempts c - 1) <=? _); reflexivity.
Qed.

Lemma state_compute_status c h now locked :
  state (compute_status c h now locked)
  = if locked then LOCKED
    else if Z.max 1 (get_max_attempts c - 1)
            <=? Z.of_nat (List.length (windowed (get_window c) now h))
         then WARNING else OK.
Proof.
  unfold compute_status. destruct locked; [reflexivity|].
  destruct (Z.max 1 (get_max_attempts c - 1) <=? _); reflexivity.
Qed.

Lemma compute_status_windowed c h now locked :
  compute_status c (windowed (get_window c) now h) now locked
  = compute_status c h now locked.
Proof. unfold compute_status. rewrite windowed_idem. reflexivity. Qed.

End Evaluator.

(** ** Properties of the operations *)

Section Operations.

Variable env : Env.

Lemma append_log_run msg w :
  append_log env msg w
  = (inr tt, set_log_file (log_file w ++ [log_line env (clock w) msg]) w).
Proof. reflexivity. Qed.

(** The dispatcher always returns, and touches the log and the outbox only. *)
Lemma maybe_notify_returns s w :
  exists w', _maybe_notify env s w = (inr tt, w') /\ same_but_log_outbox w w'.
Proof.
  unfold _maybe_notify, same_but_log_outbox, bind, gets, ret, try_except.
  destruct w as [now c v cf sf lf inc lg ob db]; cbn [cfg].
  destruct (enabled (get_notify c)) as [[|]|]; cbn [negb];
    try (eexists; split; reflexivity).
  destruct (Py.is_empty (Py.strip _)) eqn:Eurl.
  - eexists; split; reflexivity.
  - unfold tail_file, post_discord, bind, gets, ret, modify, raise.
    rewrite Eurl. cbn [log_file].
    match goal with |- context [urlopen env ?u ?a] => destruct (urlopen env u a) end;
      eexists; split; reflexivity.
Qed.

(** "Analyze Only": prune, persist, classify. *)
Lemma refresh_status_analyze w :
  let s := compute_status (cfg w) (ledger w) (clock w) (lock_file w) in
  refresh_status env false w
  = (inr s,
     set_dashboard (Some (mkDashboard s (tail_file (log_file w) 80)))
                   (set_state_file (Some (timestamps s)) w)).
Proof. reflexivity. Qed.

(** While the marker exists, recording is analysing. *)
Lemma refresh_status_locked w :
  lock_file w = true -> refresh_status env true w = refresh_status env false w.
Proof.
  destruct w as [now c v cf sf lf inc lg ob db]; cbn [lock_file]; intros ->.
  run_guard. destruct (get_max_attempts c <=? _); reflexivity.
Qed.

(** "Record Start Attempt" without a marker: append, prune, persist,
    classify, and lock when the count reaches the threshold. *)
Lemma refresh_status_record w :
  lock_file w = false ->
  let now := clock w in
  let c := cfg w in
  let h := ledger w ++ [now] in
  let kept := windowed (get_window c) now h in
  let trip := get_max_attempts c <=? Z.of_nat (List.length kept) in
  let s := compute_status c h now trip in
  exists lg ob,
    refresh_status env true w
    = (inr s,
       mkWorld now c (vars w) (config_file w) (Some kept) trip
               (if trip then Some (make_incident env c s now) else incident_file w)
               lg ob (Some (mkDashboard s (tail_file lg 80)))).
Proof.
  destruct w as [now c v cf sf lf inc lg ob db]; cbn [lock_file clock cfg ledger state_file
    vars config_file incident_file]; intros ->.
  run_guard. rewrite !timestamps_compute_status.
  destruct (get_max_attempts c <=? _) eqn:Etrip; cbv beta iota.
  - match goal with
    | |- context [_maybe_notify env ?s ?w0] =>
        destruct (maybe_notify_returns s w0) as (w' & -> & Hframe)
    end.
    rewrite Hframe, compute_status_windowed.
    eexists _, _. reflexivity.
  - eexists _, _. reflexivity.
Qed.

Lemma analyze_run now w :
  let s := compute_status (cfg w) (ledger w) now (lock_file w) in
  analyze env now w
  = (inr s,
     set_dashboard (Some (mkDashboard s (tail_file (log_file w) 80)))
                   (set_state_file (Some (timestamps s)) (set_clock now w))).
Proof. reflexivity. Qed.

Lemma recordAttempt_locked now w :
  lock_file w = true -> recordAttempt env now w = analyze env now w.
Proof.
  intros H. unfold recordAttempt, analyze, at_time, bind, modify.
  apply refresh_status_locked. exact H.
Qed.

Lemma recordAttempt_unlocked now w :
  lock_file w = false ->
  let c := cfg w in
  let h := ledger w ++ [now] in
  let kept := windowed (get_window c) now h in
  let trip := get_max_attempts c <=? Z.of_nat (List.length kept) in
  let s := compute_status c h now trip in
  exists lg ob,
    recordAttempt env now w
    = (inr s,
       mkWorld now c (vars w) (config_file w) (Some kept) trip
               (if trip then Some (make_incident env c s now) else incident_file w)
               lg ob (Some (mkDashboard s (tail_file lg 80)))).
Proof.
  intros H. unfold recordAttempt, at_time, bind, modify.
  exact (refresh_status_record (set_clock now w) H).
Qed.

(** *** Runs of calls *)

Lemma le_latest times t : In t times -> t <= latest times.
Proof.
  unfold latest. generalize (hd 0 times) as d. intros d.
  induction times as [|a l IH]; intros Ht; [contradiction|].
  cbn [fold_right]. destruct Ht as [->|Ht]; [lia|].
  specialize (IH Ht). lia.
Qed.

Lemma all_pairs (R : Z -> Z -> Prop) l :
  (forall u t, In u l -> In t l -> R u t) -> ForallOrdPairs R l.
Proof.
  induction l as [|a l IH]; intros H; [constructor|]. constructor.
  - apply Forall_forall. intros t Ht. apply H; [left; reflexivity | right; exact Ht].
  - apply IH. intros u t Hu Ht. apply H; right; assumption.
Qed.

Lemma within_window_pairs window times :
  within_window window times ->
  ForallOrdPairs (fun u t => t - u <= window) times.
Proof.
  unfold within_window. rewrite Forall_forall. intros Hw.
  apply all_pairs. intros u t Hu Ht.
  specialize (Hw u Hu). pose proof (le_latest times t Ht). lia.
Qed.

Lemma pairs_before (R : Z -> Z -> Prop) a t b :
  ForallOrdPairs R (a ++ t :: b) -> Forall (fun u => R u t) a.
Proof.
  induction a as [|u a IH]; simpl; intros H; [constructor|].
  inversion H as [|? ? Hu Hrest]; subst. constructor; [|auto].
  rewrite Forall_forall in Hu. apply Hu, in_elt.
Qed.

Lemma windowed_run window now done :
  0 <= window ->
  Forall (fun u => now - u <= window) done ->
  windowed window now (done ++ [now]) = done ++ [now].
Proof.
  intros Hw Hd. apply windowed_all, Forall_app. split; [exact Hd|].
  constructor; [lia|constructor].
Qed.

Lemma record_each_app a b w :
  record_each env (a ++ b) w
  = (sa <- record_each env a ;; sb <- record_each env b ;; ret (sa ++ sb)) w.
Proof.
  revert w. induction a as [|t a IH]; intros w; simpl; unfold bind, ret in *.
  - destruct (record_each env b w) as [[e|sb] w']; reflexivity.
  - destruct (recordAttempt env t w) as [[e|s] w1]; [reflexivity|].
    rewrite IH.
    destruct (record_each env a w1) as [[e|sa] w2]; [reflexivity|].
    destruct (record_each env b w2) as [[e|sb] w3]; reflexivity.
Qed.

(** Calls that stay below the threshold: every timestamp is kept and no
    marker appears. *)
Lemma record_each_below rest :
  forall done w,
    ledger w = done ->
    lock_file w = false ->
    0 <= get_window (cfg w) ->
    ForallOrdPairs (fun u t => t - u <= get_window (cfg w)) (done ++ rest) ->
    Z.of_nat (List.length (done ++ rest)) < get_max_attempts (cfg w) ->
    exists ss w',
      record_each env rest w = (inr ss, w')
      /\ lock_file w' = false /\ ledger w' = done ++ rest /\ cfg w' = cfg w.
Proof.
  induction rest as [|t rest IH]; intros done w Hdone Hlock Hw Hpairs Hlen.
  - exists [], w. rewrite app_nil_r. auto.
  - destruct (recordAttempt_unlocked t w Hlock) as (lg & ob & Hrun).
    rewrite Hdone in Hrun.
    rewrite (windowed_run _ _ _ Hw (pairs_before _ _ _ _ Hpairs)) in Hrun.
    assert (Htrip : (get_max_attempts (cfg w) <=? Z.of_nat (List.length (done ++ [t]))) = false).
    { apply Z.leb_gt. rewrite !length_app in *. simpl in *. lia. }
    rewrite Htrip in Hrun.
    match type of Hrun with _ = (_, ?w1) =>
      destruct (IH (done ++ [t]) w1) as (ss & w' & Hrest & Hl & Hled & Hcfg);
        try reflexivity; try assumption;
        [rewrite <- app_assoc; exact Hpairs | rewrite <- app_assoc; exact Hlen |]
    end.
    simpl. unfold bind at 1. rewrite Hrun. unfold bind. rewrite Hrest.
    eexists _, w'. split; [reflexivity|].
    rewrite <- app_assoc in Hled. auto.
Qed.


(** *** The buttons, one at a time *)

Lemma unlock_absent w :
  lock_file w = false ->
  unlock env w = (inr (ShowInfo "Unlock" "No lock file present."), w).
Proof.
  destruct w as [now c v cf sf lf inc lg ob db]; cbn [lock_file]; intros ->.
  reflexivity.
Qed.

Lemma unlock_present w :
  lock_file w = true ->
  let s := compute_status (cfg w) (ledger w) (clock w) false in
  let lg := log_file w ++ [log_line env (clock w) "Lock removed (UI)."] in
  unlock env w
  = (inr (ShowInfo "Unlocked" "Lock removed."),
     mkWorld (clock w) (cfg w) (vars w) (config_file w) (Some (timestamps s)) false
             (incident_file w) lg (outbox w) (Some (mkDashboard s (tail_file lg 80)))).
Proof.
  destruct w as [now c v cf sf lf inc lg ob db]; cbn [lock_file]; intros ->.
  reflexivity.
Qed.

Lemma clear_history_run w :
  let s := compute_status (cfg w) [] (clock w) (lock_file w) in
  let lg := log_file w ++ [log_line env (clock w) "History cleared (UI)."] in
  clear_history env true w
  = (inr (Some (ShowInfo "Cleared" "Attempt history cleared.")),
     mkWorld (clock w) (cfg w) (vars w) (config_file w) (Some (timestamps s)) (lock_file w)
             (incident_file w) lg (outbox w) (Some (mkDashboard s (tail_file lg 80)))).
Proof. destruct w; reflexivity. Qed.

(** One button press: it returns, keeps the configuration, and any entry
    of the new ledger was in the old one or is the reading just recorded,
    which then lies in the window. *)
Lemma press_ledger now op w :
  exists w',
    at_time now (press env op) w = (inr tt, w')
    /\ cfg w' = cfg w
    /\ forall u, In u (ledger w') ->
                 In u (ledger w) \/ (u = now /\ 0 <= get_window (cfg w)).
Proof.
  destruct op as [| | |confirm].
  - exists (snd (analyze env now w)). rewrite analyze_run.
    split; [reflexivity|]. split; [reflexivity|].
    cbn [snd ledger state_file set_dashboard set_state_file].
    rewrite timestamps_compute_status. intros u Hu.
    apply windowed_In in Hu. left. exact (proj1 Hu).
  - destruct (lock_file w) eqn:Hlock.
    + exists (snd (analyze env now w)).
      change (at_time now (press env RecordAttempt) w)
        with ((_ <- recordAttempt env now ;; ret tt) w).
      unfold bind. rewrite (recordAttempt_locked _ _ Hlock), analyze_run.
      split; [reflexivity|]. split; [reflexivity|].
      cbn [snd ledger state_file set_dashboard set_state_file].
      rewrite timestamps_compute_status. intros u Hu.
      apply windowed_In in Hu. left. exact (proj1 Hu).
    + destruct (recordAttempt_unlocked now w Hlock) as (lg & ob & Hrun).
      change (at_time now (press env RecordAttempt) w)
        with ((_ <- recordAttempt env now ;; ret tt) w).
      unfold bind. rewrite Hrun. eexists. split; [reflexivity|].
      split; [reflexivity|].
      cbn [ledger state_file]. intros u Hu.
      apply windowed_In in Hu. destruct Hu as [Hu Hwin].
      apply in_app_or in Hu. destruct Hu as [Hu|[<-|[]]]; [left; exact Hu|].
      right. split; [reflexivity|lia].
  - destruct (lock_file w) eqn:Hlock.
    + change (at_time now (press env Unlock) w)
        with ((_ <- unlock env ;; ret tt) (set_clock now w)).
      unfold bind. rewrite (unlock_present (set_clock now w) Hlock).
      eexists. split; [reflexivity|]. split; [reflexivity|].
      cbn [ledger state_file]. rewrite timestamps_compute_status. intros u Hu.
      apply windowed_In in Hu. left. exact (proj1 Hu).
    + change (at_time now (press env Unlock) w)
        with ((_ <- unlock env ;; ret tt) (set_clock now w)).
      unfold bind. rewrite (unlock_absent (set_clock now w) Hlock).
      eexists. split; [reflexivity|]. split; [reflexivity|].
      intros u Hu. left. exact Hu.
  - destruct confirm.
    + change (at_time now (press env (ClearHistory true)) w)
        with ((_ <- clear_history env true ;; ret tt) (set_clock now w)).
      unfold bind. rewrite clear_history_run.
      eexists. split; [reflexivity|]. split; [reflexivity|].
      cbn [ledger state_file]. rewrite timestamps_compute_status. intros u Hu.
      apply windowed_In in Hu. destruct Hu as [[] _].
    + exists (set_clock now w). split; [reflexivity|]. split; [reflexivity|].
      intros u Hu. left. exact Hu.
Qed.

(** A reading that is not in the ledger and that no later call can
    record stays out of the ledger. *)
Lemma run_never_readds t schedule :
  forall w,
    ~ In t (ledger w) ->
    (0 <= get_window (cfg w) -> Forall (fun call => fst call <> t) schedule) ->
    exists w',
      run env schedule w = (inr tt, w') /\ cfg w' = cfg w /\ ~ In t (ledger w').
Proof.
  induction schedule as [|[now op] rest IH]; intros w Hout Hlater.
  - exists w. auto.
  - destruct (press_ledger now op w) as (w1 & Hrun & Hcfg & Hled).
    destruct (IH w1) as (w' & Hrest & Hcfg' & Hout').
    + intros Hin. destruct (Hled t Hin) as [Hold|[-> Hw]]; [auto|].
      specialize (Hlater Hw). inversion Hlater; subst. cbn [fst] in *. congruence.
    + rewrite Hcfg. intros Hw. specialize (Hlater Hw). inversion Hlater; assumption.
    + exists w'. cbn [run]. unfold bind at 1. rewrite Hrun, Hrest.
      split; [reflexivity|]. split; [congruence|exact Hout'].
Qed.


(** *** The dispatcher *)

Lemma maybe_notify_disabled s w :
  enabled (get_notify (cfg w)) <> Some true ->
  _maybe_notify env s w = (inr tt, w).
Proof.
  intros H. unfold _maybe_notify, bind, gets, ret.
  destruct (enabled (get_notify (cfg w))) as [[|]|]; [congruence|reflexivity|reflexivity].
Qed.

Lemma maybe_notify_blank s w :
  enabled (get_notify (cfg w)) = Some true ->
  Py.is_empty (webhook_of w) = true ->
  _maybe_notify env s w
  = (inr tt,
     set_log_file (log_file w ++ [log_line env (clock w) "Notify enabled but webhook empty."]) w).
Proof.
  unfold webhook_of. intros Hen Hurl. unfold _maybe_notify, bind, gets, ret.
  rewrite Hen, Hurl. reflexivity.
Qed.

Lemma maybe_notify_failed e s w :
  enabled (get_notify (cfg w)) = Some true ->
  Py.is_empty (webhook_of w) = false ->
  urlopen env (webhook_of w) (alert_of env s w) = Some e ->
  _maybe_notify env s w
  = (inr tt,
     set_log_file
       (log_file w ++ [log_line env (clock w) ("Notification failed: " ++ exn_repr e)])
       (set_outbox (outbox w ++ [(webhook_of w, alert_of env s w)]) w)).
Proof.
  unfold webhook_of, alert_of. intros Hen Hurl Hnet.
  unfold _maybe_notify, bind, gets, ret, try_except, post_discord, modify, raise.
  rewrite Hen, Hurl. cbn [negb]. rewrite Hnet. reflexivity.
Qed.

(** The call that reaches the threshold, spelled out up to the dispatcher. *)
Lemma refresh_status_trips w :
  lock_file w = false ->
  let now := clock w in
  let c := cfg w in
  let s := compute_status c (ledger w ++ [now]) now true in
  get_max_attempts c <= attempt_count s ->
  refresh_status env true w
  = (let w' := snd (_maybe_notify env s (locking_world env w)) in
     (inr s, set_dashboard (Some (mkDashboard s (tail_file (log_file w') 80))) w')).
Proof.
  destruct w as [now c v cf sf lf inc lg ob db];
    cbn [lock_file clock cfg]; intros -> Htrip.
  rewrite attempt_count_compute_status in Htrip. apply Z.leb_le in Htrip.
  unfold locking_world, ledger, log_line in Htrip |- *.
  cbn [state_file clock cfg vars config_file log_file outbox dashboard] in Htrip |- *.
  rewrite attempt_count_compute_status, timestamps_compute_status.
  run_guard. rewrite !timestamps_compute_status, Htrip, windowed_idem. cbv beta iota.
  rewrite compute_status_windowed, <- app_assoc. cbn [app].
  match goal with
  | |- context [_maybe_notify env ?s ?w0] =>
      destruct (maybe_notify_returns s w0) as (w' & Hrun & Hframe)
  end.
  rewrite Hrun. cbn [snd]. rewrite Hframe. reflexivity.
Qed.

(** *** Saving the configuration *)

Lemma ints_of_run parts w :
  ints_of env parts w
  = (match parse_ints parts with
     | inl bad => inl (int_error env bad)
     | inr ns => inr ns
     end, w).
Proof.
  induction parts as [|x rest IH]; [reflexivity|]. cbn [ints_of parse_ints].
  destruct (Py.is_empty (Py.strip x)); [exact IH|].
  unfold bind, int_of, ret, raise. destruct (Py.int (Py.strip x)); [|reflexivity].
  rewrite IH. destruct (parse_ints rest); reflexivity.
Qed.

Lemma save_cfg_run w :
  let v := vars w in
  save_cfg env w
  = match Py.int (Py.strip (var_max v)) with
    | None => (inr (ShowError "Save failed" (exn_str (int_error env (Py.strip (var_max v))))), w)
    | Some max_a =>
        match Py.int (Py.strip (var_window v)) with
        | None =>
            (inr (ShowError "Save failed" (exn_str (int_error env (Py.strip (var_window v))))), w)
        | Some win_s =>
            match parse_ints (Py.split "," (var_backoff v)) with
            | inl bad => (inr (ShowError "Save failed" (exn_str (int_error env bad))), w)
            | inr backoff =>
                let c' := saved_config (cfg w) max_a win_s backoff v in
                (inr (ShowInfo "Saved" "Config saved."),
                 set_config_file (Some c') (set_cfg c' w))
            end
        end
    end.
Proof.
  unfold save_cfg, try_except, bind, gets, int_of, ret, raise, modify, save_config.
  destruct (Py.int (Py.strip (var_max (vars w)))); [|reflexivity].
  destruct (Py.int (Py.strip (var_window (vars w)))); [|reflexivity].
  rewrite ints_of_run.
  destruct (parse_ints (Py.split "," (var_backoff (vars w)))); reflexivity.
Qed.


(** *** The claims *)

(** C1. Starting without a marker and with an empty ledger, with threshold
    [M >= 1] and window [W >= 1]: after [M] calls of [recordAttempt]
    whose clock readings all lie within [W] seconds of the latest, the status
    returned last is LOCKED and the marker exists; after fewer such calls
    there is no marker and the status is WARNING when the number of calls
    is at least [max(1, M-1)], OK otherwise. *)
Theorem lock_after_threshold_attempts (w : World) (times : list Z) :
  lock_file w = false ->
  ledger w = [] ->
  1 <= get_max_attempts (cfg w) ->
  1 <= get_window (cfg w) ->
  times <> [] ->
  Z.of_nat (List.length times) <= get_max_attempts (cfg w) ->
  within_window (get_window (cfg w)) times ->
  exists earlier s w',
    record_each env times w = (inr (earlier ++ [s]), w')
    /\ attempt_count s = Z.of_nat (List.length times)
    /\ (Z.of_nat (List.length times) = get_max_attempts (cfg w) ->
        state s = LOCKED /\ lock_file w' = true)
    /\ (Z.of_nat (List.length times) < get_max_attempts (cfg w) ->
        lock_file w' = false
        /\ state s = if Z.max 1 (get_max_attempts (cfg w) - 1) <=? Z.of_nat (List.length times)
                     then WARNING else OK).
Proof.
  intros Hlock Hempty HM HW Hne Hlen Hwin.
  destruct (exists_last Hne) as (init & t & ->).
  apply within_window_pairs in Hwin.
  rewrite length_app in Hlen |- *. cbn [List.length] in Hlen |- *.
  destruct (record_each_below init [] w Hempty Hlock) as (ss & w1 & Hrun & Hl1 & Hled & Hcfg).
  { lia. }
  { cbn [app]. clear - Hwin.
    induction init as [|a init IH]; [constructor|].
    inversion Hwin as [|? ? Ha Hrest]; subst. constructor; [|auto].
    apply Forall_app in Ha. exact (proj1 Ha). }
  { cbn [app]. lia. }
  cbn [app] in Hled.
  destruct (recordAttempt_unlocked t w1 Hl1) as (lg & ob & Hlast).
  rewrite Hled, Hcfg in Hlast.
  rewrite (windowed_run (get_window (cfg w)) t init) in Hlast;
    [|lia|exact (pairs_before _ _ _ _ Hwin)].
  rewrite length_app in Hlast. cbn [List.length] in Hlast.
  match type of Hlast with _ = (inr ?s1, ?w2) => exists ss, s1, w2 end.
  split.
  { rewrite record_each_app. unfold bind at 1. rewrite Hrun.
    cbn [record_each]. unfold bind, ret. rewrite Hlast. reflexivity. }
  split.
  { rewrite attempt_count_compute_status, windowed_run;
      [|lia|exact (pairs_before _ _ _ _ Hwin)].
    rewrite length_app. reflexivity. }
  rewrite state_compute_status, windowed_run;
    [|lia|exact (pairs_before _ _ _ _ Hwin)].
  rewrite length_app. cbn [List.length lock_file].
  split; intros Hk.
  - assert (E : (get_max_attempts (cfg w) <=? Z.of_nat (List.length init + 1)) = true)
      by (apply Z.leb_le; lia).
    rewrite E. auto.
  - assert (E : (get_max_attempts (cfg w) <=? Z.of_nat (List.length init + 1)) = false)
      by (apply Z.leb_gt; lia).
    rewrite E. auto.
Qed.

(** C2. The evaluator only classifies: LOCKED when the lock flag is set,
    whatever the count; otherwise WARNING when the in-window count is at
    least [max(1, max_attempts - 1)]; otherwise OK.  It has no access to
    the marker, and the call that only evaluates ("Analyze Only") leaves
    the marker as it found it. *)
Theorem compute_status_classifies (c : Config) (history : list Z) (now : Z) (locked : bool)
        (w : World) :
  state (compute_status c history now locked)
  = (if locked then LOCKED
     else if Z.max 1 (get_max_attempts c - 1)
             <=? Z.of_nat (List.length (filter (fun t => now - t <=? get_window c) history))
          then WARNING
          else OK)
  /\ lock_file (world_after (refresh_status env false w)) = lock_file w.
Proof.
  split; [apply state_compute_status | reflexivity].
Qed.

(** C3. A [recordAttempt] made while the marker exists appends nothing:
    the ledger it persists is the previous ledger pruned to the window,
    nothing is logged, and its status, count included, is the one
    [analyze] gives at the same time. *)
Theorem record_while_locked_appends_nothing (now : Z) (w : World) :
  lock_file w = true ->
  exists s w',
    recordAttempt env now w = (inr s, w')
    /\ state_file w' = Some (windowed (get_window (cfg w)) now (ledger w))
    /\ log_file w' = log_file w
    /\ analyze env now w = (inr s, w')
    /\ attempt_count s
       = Z.of_nat (List.length (windowed (get_window (cfg w)) now (ledger w))).
Proof.
  intros Hlock. rewrite (recordAttempt_locked now w Hlock), analyze_run.
  eexists _, _. split; [reflexivity|].
  cbn [state_file log_file set_dashboard set_state_file set_clock].
  rewrite timestamps_compute_status, attempt_count_compute_status. auto.
Qed.

(** C4. Every [analyze] and every [recordAttempt] at time [now] persists
    exactly the entries [t] of the ledger (with [now] appended when the
    call records) that satisfy [now - t <= window], in their order; an
    entry [t] this pruning drops is not in the persisted ledger, and it is
    in no ledger persisted by later presses of the buttons (calls at
    clock readings from [now] on). *)
Theorem prune_persists_window (record : bool) (now : Z) (w : World) :
  let call := if record then recordAttempt env now else analyze env now in
  let read := if record && negb (lock_file w) then ledger w ++ [now] else ledger w in
  let w' := world_after (call w) in
  state_file w' = Some (filter (fun t => now - t <=? get_window (cfg w)) read)
  /\ forall t,
      In t read ->
      get_window (cfg w) < now - t ->
      forall later,
        Forall (fun press => now <= fst press) later ->
        returned (run env later w') = Some tt
        /\ ~ In t (ledger (world_after (run env later w'))).
Proof.
  intros call read w'.
  assert (Hw' : state_file w' = Some (windowed (get_window (cfg w)) now read)
                /\ cfg w' = cfg w).
  { subst call read w'. destruct record; cbn [andb].
    - destruct (lock_file w) eqn:Hlock; cbn [negb].
      + rewrite (recordAttempt_locked now w Hlock), analyze_run.
        cbn. rewrite timestamps_compute_status. auto.
      + destruct (recordAttempt_unlocked now w Hlock) as (lg & ob & ->). cbn. auto.
    - rewrite analyze_run. cbn. rewrite timestamps_compute_status. auto. }
  destruct Hw' as [Hfile Hcfg]. split; [exact Hfile|].
  intros t Hread Hold later Hlater.
  destruct (run_never_readds t later w') as (w'' & Hrun & _ & Hout).
  - unfold ledger. rewrite Hfile. intros Hin. apply windowed_In in Hin. lia.
  - rewrite Hcfg. intros Hwin. apply Forall_forall. intros press Hin.
    rewrite Forall_forall in Hlater. specialize (Hlater press Hin). lia.
  - rewrite Hrun. split; [reflexivity|exact Hout].
Qed.

(** C5. Pruning is idempotent: filtering a filtered history by the same
    window at the same time changes nothing; so a second [analyze] at the
    same time, with nothing recorded in between, returns the same status
    (same count, same timestamps) and leaves the same world. *)
Theorem prune_idempotent (window now : Z) (history : list Z) (w : World) :
  windowed window now (windowed window now history) = windowed window now history
  /\ exists s w1,
      analyze env now w = (inr s, w1)
      /\ analyze env now w1 = (inr s, w1)
      /\ timestamps s = windowed (get_window (cfg w)) now (ledger w)
      /\ attempt_count s = Z.of_nat (List.length (timestamps s)).
Proof.
  split; [apply windowed_idem|].
  eexists _, _. split; [apply analyze_run|].
  split.
  - rewrite analyze_run. destruct w as [clk c v cf sf lf inc lg ob db].
    unfold ledger.
    cbn [state_file cfg lock_file log_file set_dashboard set_state_file set_clock clock
         vars config_file incident_file outbox dashboard].
    rewrite !timestamps_compute_status, windowed_idem, compute_status_windowed.
    reflexivity.
  - rewrite timestamps_compute_status, attempt_count_compute_status. auto.
Qed.

(** C6. [unlock] without a marker shows "No lock file present." and
    changes nothing.  With a marker it shows "Lock removed.", a different
    box; the marker is gone, so that a second [unlock] finds nothing to
    remove; the ledger is the pruned one, and every later [analyze]
    classifies it by the unlocked rule, WARNING or OK. *)
Theorem unlock_reports_and_releases (w : World) :
  (lock_file w = false ->
   unlock env w = (inr (ShowInfo "Unlock" "No lock file present."), w))
  /\ (lock_file w = true ->
      exists w',
        unlock env w = (inr (ShowInfo "Unlocked" "Lock removed."), w')
        /\ ShowInfo "Unlocked" "Lock removed." <> ShowInfo "Unlock" "No lock file present."
        /\ lock_file w' = false
        /\ state_file w' = Some (windowed (get_window (cfg w)) (clock w) (ledger w))
        /\ unlock env w' = (inr (ShowInfo "Unlock" "No lock file present."), w')
        /\ forall now, exists s w'',
            analyze env now w' = (inr s, w'')
            /\ lock_file w'' = false
            /\ timestamps s = windowed (get_window (cfg w)) now (ledger w')
            /\ state s = if Z.max 1 (get_max_attempts (cfg w) - 1)
                            <=? Z.of_nat (List.length (timestamps s))
                         then WARNING else OK).
Proof.
  split; intros Hlock; [exact (unlock_absent w Hlock)|].
  eexists. split; [exact (unlock_present w Hlock)|].
  split; [discriminate|]. split; [reflexivity|].
  split; [cbn [state_file]; rewrite timestamps_compute_status; reflexivity|].
  split; [apply unlock_absent; reflexivity|].
  intros now. eexists _, _. split; [apply analyze_run|].
  split; [reflexivity|].
  cbn [cfg lock_file]. rewrite timestamps_compute_status, state_compute_status.
  split; reflexivity.
Qed.


(** C7. When the POST fails, with whatever exception, the record call
    that reaches the threshold still returns, and returns LOCKED: the
    marker is there, the incident is written, the one POST attempted is in
    the outbox, and the failure is the last line of the audit log. *)
Theorem notification_failure_keeps_lock (e : Exn) (now : Z) (w : World) :
  lock_file w = false ->
  enabled (get_notify (cfg w)) = Some true ->
  Py.is_empty (webhook_of w) = false ->
  (forall url alert, urlopen env url alert = Some e) ->
  let s := compute_status (cfg w) (ledger w ++ [now]) now true in
  get_max_attempts (cfg w) <= attempt_count s ->
  exists w' alert,
    recordAttempt env now w = (inr s, w')
    /\ state s = LOCKED
    /\ lock_file w' = true
    /\ incident_file w' = Some (make_incident env (cfg w) s now)
    /\ inc_state (make_incident env (cfg w) s now) = LOCKED
    /\ outbox w' = outbox w ++ [(webhook_of w, alert)]
    /\ log_file w'
       = log_file w
         ++ [log_line env now "Recorded start attempt (UI).";
             log_line env now ("LOCKED (threshold reached). "
                               ++ Py.str (attempt_count s) ++ " in window.");
             log_line env now ("Notification failed: " ++ exn_repr e)].
Proof.
  intros Hlock Hen Hurl Hnet s Htrip.
  unfold recordAttempt, at_time, bind, modify.
  rewrite (refresh_status_trips (set_clock now w) Hlock Htrip).
  rewrite (maybe_notify_failed e _ (locking_world env (set_clock now w)) Hen Hurl (Hnet _ _)).
  eexists _, _. split; [reflexivity|].
  split; [reflexivity|]. split; [reflexivity|]. split; [reflexivity|].
  split; [reflexivity|]. split; [reflexivity|].
  cbn [log_file set_dashboard set_log_file set_outbox locking_world set_clock clock].
  rewrite <- app_assoc. reflexivity.
Qed.

(** C8, as the code has it.  The dispatcher posts nothing and raises
    nothing both when notifications are not enabled and when the webhook
    is blank.  A blank webhook is written to the audit log; with
    notifications not enabled the dispatcher returns at once and the world,
    audit log included, is as before. *)
Theorem notify_skips_without_post (s : Status) (w : World) :
  (enabled (get_notify (cfg w)) <> Some true ->
   _maybe_notify env s w = (inr tt, w))
  /\ (enabled (get_notify (cfg w)) = Some true ->
      Py.is_empty (webhook_of w) = true ->
      exists w',
        _maybe_notify env s w = (inr tt, w')
        /\ outbox w' = outbox w
        /\ log_file w'
           = log_file w ++ [log_line env (clock w) "Notify enabled but webhook empty."]).
Proof.
  split.
  - apply maybe_notify_disabled.
  - intros Hen Hurl. eexists. split; [exact (maybe_notify_blank s w Hen Hurl)|].
    split; reflexivity.
Qed.

(** C9, as the code has it.  [save_cfg] accepts every text that [int]
    reads as an integer for the threshold, below 1 or not, and stores it
    as entered (the window and the backoff list being integers too); a
    threshold text that is not an integer is refused with an error box and
    leaves the configuration, in memory and on disk, unchanged. *)
Theorem save_cfg_accepts_any_integer (w : World) :
  (forall max_a win_s backoff,
      Py.int (Py.strip (var_max (vars w))) = Some max_a ->
      Py.int (Py.strip (var_window (vars w))) = Some win_s ->
      parse_ints (Py.split "," (var_backoff (vars w))) = inr backoff ->
      exists w',
        save_cfg env w = (inr (ShowInfo "Saved" "Config saved."), w')
        /\ config_file w' = Some (cfg w')
        /\ cfg_max_attempts (cfg w') = Some max_a)
  /\ (Py.int (Py.strip (var_max (vars w))) = None ->
      exists text,
        save_cfg env w = (inr (ShowError "Save failed" text), w)).
Proof.
  split.
  - intros max_a win_s backoff Hmax Hwin Hback.
    rewrite save_cfg_run. cbv zeta. rewrite Hmax, Hwin, Hback.
    eexists. split; [reflexivity|]. split; reflexivity.
  - intros Hmax. rewrite save_cfg_run. cbv zeta. rewrite Hmax.
    eexists. reflexivity.
Qed.

(** C10. In every [Status] the evaluator returns, [attempt_count] is the
    length of [timestamps], and [timestamps] is the input history filtered
    by [now - t <= window], order kept; the same holds for the status of
    every [analyze] and [recordAttempt], locked or not, where the input is
    the ledger (with [now] appended when the call records). *)
Theorem status_count_matches_timestamps
        (c : Config) (history : list Z) (now : Z) (locked record : bool) (w : World) :
  let s := compute_status c history now locked in
  attempt_count s = Z.of_nat (List.length (timestamps s))
  /\ timestamps s = filter (fun t => now - t <=? get_window c) history
  /\ exists s' w',
      (if record then recordAttempt env now else analyze env now) w = (inr s', w')
      /\ attempt_count s' = Z.of_nat (List.length (timestamps s'))
      /\ timestamps s'
         = filter (fun t => now - t <=? get_window (cfg w))
                  (if record && negb (lock_file w) then ledger w ++ [now] else ledger w).
Proof.
  cbv zeta. rewrite attempt_count_compute_status, timestamps_compute_status.
  split; [reflexivity|]. split; [reflexivity|].
  destruct record; cbn [andb].
  - destruct (lock_file w) eqn:Hlock; cbn [negb].
    + rewrite (recordAttempt_locked now w Hlock), analyze_run.
      eexists _, _. split; [reflexivity|].
      rewrite attempt_count_compute_status, timestamps_compute_status. auto.
    + destruct (recordAttempt_unlocked now w Hlock) as (lg & ob & ->).
      eexists _, _. split; [reflexivity|].
      rewrite attempt_count_compute_status, timestamps_compute_status. auto.
  - rewrite analyze_run. eexists _, _. split; [reflexivity|].
    rewrite attempt_count_compute_status, timestamps_compute_status. auto.
Qed.

End Operations.

(** ** The guard at work *)

(** Threshold 3, window 300: attempts at 0, 50 and 100 give OK, WARNING,
    LOCKED, and a fourth at 120 is refused. *)
Example three_attempts_lock :
  option_map (map state)
             (returned (record_each offline_env [0; 50; 100; 120] (fresh_world default_cfg)))
  = Some [OK; WARNING; LOCKED; LOCKED]
  /\ state_file (world_after (record_each offline_env [0; 50; 100; 120] (fresh_world default_cfg)))
     = Some [0; 50; 100]
  /\ option_map inc_attempt_count
       (incident_file (world_after (record_each offline_env [0; 50; 100] (fresh_world default_cfg))))
     = Some 3.
Proof. repeat split; vm_compute; reflexivity. Qed.

(** Window 300: an attempt at 0 is pruned by the attempt at 400. *)
Example old_attempt_pruned :
  option_map (map (fun s => (state s, attempt_count s, timestamps s)))
             (returned (record_each offline_env [0; 400] (fresh_world default_cfg)))
  = Some [(OK, 1, [0]); (OK, 1, [400])].
Proof. vm_compute. reflexivity. Qed.

(** With notifications on and a webhook entered, the lock attempts one POST. *)
Example one_post_per_lock :
  List.length (outbox (world_after (record_each offline_env [0; 50; 100; 120]
                                                (fresh_world alerting_cfg)))) = 1%nat.
Proof. vm_compute. reflexivity. Qed.

(** *** Instances of the claims *)

Lemma lock_after_threshold_attempts_witness :
  exists earlier s w',
    record_each offline_env [0; 50; 100] (fresh_world default_cfg) = (inr (earlier ++ [s]), w')
    /\ attempt_count s = 3
    /\ (3 = 3 -> state s = LOCKED /\ lock_file w' = true)
    /\ (3 < 3 -> lock_file w' = false /\ state s = WARNING).
Proof.
  apply (lock_after_threshold_attempts offline_env (fresh_world default_cfg) [0; 50; 100]).
  - reflexivity.
  - reflexivity.
  - apply Z.leb_le; reflexivity.
  - apply Z.leb_le; reflexivity.
  - discriminate.
  - apply Z.leb_le; reflexivity.
  - repeat (apply Forall_cons; [apply Z.leb_le; reflexivity|]). apply Forall_nil.
Defined.

Lemma record_while_locked_appends_nothing_witness :
  lock_file locked_world = true
  /\ exists s w',
      recordAttempt offline_env 120 locked_world = (inr s, w')
      /\ state_file w' = Some [0; 50; 100]
      /\ log_file w' = []
      /\ analyze offline_env 120 locked_world = (inr s, w')
      /\ attempt_count s = 3.
Proof.
  split; [reflexivity|].
  apply (record_while_locked_appends_nothing offline_env 120 locked_world). reflexivity.
Defined.

Lemma prune_persists_window_witness :
  In 0 (ledger two_attempts_world ++ [400])
  /\ get_window (cfg two_attempts_world) < 400 - 0
  /\ returned (run offline_env [(450, RecordAttempt); (460, Analyze)]
                   (world_after (recordAttempt offline_env 400 two_attempts_world)))
     = Some tt
  /\ ~ In 0 (ledger (world_after
                       (run offline_env [(450, RecordAttempt); (460, Analyze)]
                            (world_after (recordAttempt offline_env 400 two_attempts_world))))).
Proof.
  split; [left; reflexivity|]. split; [apply Z.ltb_lt; reflexivity|].
  apply (proj2 (prune_persists_window offline_env true 400 two_attempts_world) 0).
  - left; reflexivity.
  - apply Z.ltb_lt; reflexivity.
  - repeat (apply Forall_cons; [apply Z.leb_le; reflexivity|]). apply Forall_nil.
Defined.

Lemma unlock_reports_and_releases_witness :
  unlock offline_env (fresh_world default_cfg)
  = (inr (ShowInfo "Unlock" "No lock file present."), fresh_world default_cfg)
  /\ exists w',
      unlock offline_env locked_world = (inr (ShowInfo "Unlocked" "Lock removed."), w')
      /\ lock_file w' = false.
Proof.
  split.
  - apply (proj1 (unlock_reports_and_releases offline_env (fresh_world default_cfg))).
    reflexivity.
  - destruct (proj2 (unlock_reports_and_releases offline_env locked_world) eq_refl)
      as (w' & Hrun & _ & Hlock & _).
    exists w'. split; [exact Hrun | exact Hlock].
Defined.

Lemma notification_failure_keeps_lock_witness :
  exists w' alert,
    recordAttempt offline_env 100 two_attempts_world
    = (inr (compute_status alerting_cfg [0; 50; 100] 100 true), w')
    /\ lock_file w' = true
    /\ outbox w' = [("https://discord.example/api/webhooks/1", alert)]
    /\ log_file w'
       = ["[epoch 100] Recorded start attempt (UI).";
          "[epoch 100] LOCKED (threshold reached). 3 in window.";
          "[epoch 100] Notification failed: TimeoutError('timed out')"].
Proof.
  destruct (notification_failure_keeps_lock offline_env timed_out 100 two_attempts_world)
    as (w' & alert & Hrun & _ & Hlock & _ & _ & Hout & Hlog).
  - reflexivity.
  - reflexivity.
  - reflexivity.
  - intros url alert; reflexivity.
  - apply Z.leb_le; reflexivity.
  - exists w', alert. split; [exact Hrun|]. split; [exact Hlock|].
    split; [exact Hout | exact Hlog].
Defined.

Lemma notify_skips_without_post_witness :
  _maybe_notify offline_env locked_status (fresh_world default_cfg)
  = (inr tt, fresh_world default_cfg)
  /\ exists w',
      _maybe_notify offline_env locked_status (fresh_world blank_webhook_cfg) = (inr tt, w')
      /\ outbox w' = []
      /\ log_file w' = ["[epoch 0] Notify enabled but webhook empty."].
Proof.
  split.
  - apply (proj1 (notify_skips_without_post offline_env locked_status (fresh_world default_cfg))).
    discriminate.
  - apply (proj2 (notify_skips_without_post offline_env locked_status
                                            (fresh_world blank_webhook_cfg))).
    + reflexivity.
    + reflexivity.
Defined.

Lemma save_cfg_accepts_any_integer_witness :
  (exists w',
      save_cfg offline_env zero_threshold_world = (inr (ShowInfo "Saved" "Config saved."), w')
      /\ config_file w' = Some (cfg w')
      /\ cfg_max_attempts (cfg w') = Some 0)
  /\ exists text,
      save_cfg offline_env bad_threshold_world
      = (inr (ShowError "Save failed" text), bad_threshold_world).
Proof.
  split.
  - apply (proj1 (save_cfg_accepts_any_integer offline_env zero_threshold_world)
                 0 300 [0; 60; 180; 300]); reflexivity.
  - apply (proj2 (save_cfg_accepts_any_integer offline_env bad_threshold_world)).
    reflexivity.
Defined.

(** *** Where the code departs from the specification *)

(** C8 says a skipped notification is written to the audit log also when
    notifications are disabled.  With the built-in configuration, which has
    them disabled, the dispatcher returns and the audit log stays empty. *)
Lemma disabled_notification_is_not_logged :
  enabled (get_notify (cfg (fresh_world default_cfg))) = Some false
  /\ returned (_maybe_notify offline_env locked_status (fresh_world default_cfg)) = Some tt
  /\ log_file (world_after (_maybe_notify offline_env locked_status (fresh_world default_cfg)))
     = [].
Proof. repeat split. Qed.

(** C9 says a save with a threshold below 1 is rejected.  With 0 in the
    "Max attempts" entry the save is accepted and the stored configuration
    has threshold 0. *)
Lemma save_cfg_stores_zero_threshold :
  var_max (vars zero_threshold_world) = "0"
  /\ returned (save_cfg offline_env zero_threshold_world)
     = Some (ShowInfo "Saved" "Config saved.")
  /\ option_map cfg_max_attempts
                (config_file (world_after (save_cfg offline_env zero_threshold_world)))
     = Some (Some 0)
  /\ ~ 1 <= 0.
Proof. repeat split. lia. Qed.

(** ** Texts and numbers *)

Section Texts.

Lemma int_digits_digit c acc b r :
  Py.is_digit c = true ->
  Py.int_digits acc b (String c r) = Py.int_digits (10 * acc + Py.digit_value c) true r.
Proof. intros H. cbn [Py.int_digits]. rewrite H. reflexivity. Qed.

Lemma digit_not_space c : Py.is_digit c = true -> Py.is_space c = false.
Proof.
  destruct c as [[|] [|] [|] [|] [|] [|] [|] [|]]; intros H; try reflexivity; discriminate H.
Qed.

Lemma int_char_not_space c : is_int_char c = true -> Py.is_space c = false.
Proof.
  destruct c as [[|] [|] [|] [|] [|] [|] [|] [|]]; intros H; try reflexivity; discriminate H.
Qed.

Lemma int_char_not_comma c : is_int_char c = true -> Ascii.eqb c "," = false.
Proof.
  destruct c as [[|] [|] [|] [|] [|] [|] [|] [|]]; intros H; try reflexivity; discriminate H.
Qed.

Lemma all_chars_impl (p q : ascii -> bool) s :
  (forall c, p c = true -> q c = true) -> all_chars p s = true -> all_chars q s = true.
Proof.
  intros Hpq. induction s as [|c r IH]; [reflexivity|]. cbn [all_chars].
  intros H. apply andb_true_iff in H. destruct H as [Hc Hr].
  rewrite (Hpq c Hc), (IH Hr). reflexivity.
Qed.

(** The digits [Pos.to_uint] writes are read back with the accumulator of
    [Pos.of_uint_acc]. *)
Lemma digits_of_uint_acc d :
  forall p, Py.int_digits (Zpos p) true (NilEmpty.string_of_uint d)
            = Some (Zpos (Pos.of_uint_acc d p)).
Proof.
  induction d as [|d IH|d IH|d IH|d IH|d IH|d IH|d IH|d IH|d IH|d IH]; intros p;
    [reflexivity|..];
    cbn [NilEmpty.string_of_uint Pos.of_uint_acc];
    rewrite int_digits_digit by reflexivity;
    rewrite <- IH; f_equal;
    match goal with
    | |- context [Py.digit_value ?c] =>
        let v := eval vm_compute in (Py.digit_value c) in
        change (Py.digit_value c) with v
    end; lia.
Qed.

Lemma digits_of_uint d :
  forall b, b = true \/ d <> Decimal.Nil ->
            Py.int_digits 0 b (NilEmpty.string_of_uint d) = Some (Z.of_N (Pos.of_uint d)).
Proof.
  induction d as [|d IH|d IH|d IH|d IH|d IH|d IH|d IH|d IH|d IH|d IH]; intros b Hb.
  - destruct Hb as [->|Hb]; [reflexivity|contradiction].
  - cbn [NilEmpty.string_of_uint Pos.of_uint].
    rewrite int_digits_digit by reflexivity. apply IH. left; reflexivity.
  - cbn [NilEmpty.string_of_uint Pos.of_uint].
    rewrite int_digits_digit by reflexivity. apply (digits_of_uint_acc d 1).
  - cbn [NilEmpty.string_of_uint Pos.of_uint].
    rewrite int_digits_digit by reflexivity. apply (digits_of_uint_acc d 2).
  - cbn [NilEmpty.string_of_uint Pos.of_uint].
    rewrite int_digits_digit by reflexivity. apply (digits_of_uint_acc d 3).
  - cbn [NilEmpty.string_of_uint Pos.of_uint].
    rewrite int_digits_digit by reflexivity. apply (digits_of_uint_acc d 4).
  - cbn [NilEmpty.string_of_uint Pos.of_uint].
    rewrite int_digits_digit by reflexivity. apply (digits_of_uint_acc d 5).
  - cbn [NilEmpty.string_of_uint Pos.of_uint].
    rewrite int_digits_digit by reflexivity. apply (digits_of_uint_acc d 6).
  - cbn [NilEmpty.string_of_uint Pos.of_uint].
    rewrite int_digits_digit by reflexivity. apply (digits_of_uint_acc d 7).
  - cbn [NilEmpty.string_of_uint Pos.of_uint].
    rewrite int_digits_digit by reflexivity. apply (digits_of_uint_acc d 8).
  - cbn [NilEmpty.string_of_uint Pos.of_uint].
    rewrite int_digits_digit by reflexivity. apply (digits_of_uint_acc d 9).
Qed.

Lemma uint_text_digits d : all_chars Py.is_digit (NilEmpty.string_of_uint d) = true.
Proof.
  induction d; cbn [NilEmpty.string_of_uint all_chars]; try reflexivity;
    rewrite IHd; reflexivity.
Qed.

Lemma pos_text p :
  exists c r, NilEmpty.string_of_uint (Pos.to_uint p) = String c r
              /\ Py.is_digit c = true
              /\ all_chars Py.is_digit r = true.
Proof.
  pose proof (DecimalPos.Unsigned.to_uint_nonnil p) as Hnil.
  pose proof (uint_text_digits (Pos.to_uint p)) as Hall.
  destruct (Pos.to_uint p); [contradiction|..];
    (cbn [NilEmpty.string_of_uint all_chars] in Hall |- *;
     apply andb_true_iff in Hall;
     eexists _, _; split; [reflexivity | split; [reflexivity | exact (proj2 Hall)]]).
Qed.

Lemma str_pos p : Py.str (Zpos p) = NilEmpty.string_of_uint (Pos.to_uint p).
Proof.
  unfold Py.str. cbn [Z.to_int NilZero.string_of_int NilZero.string_of_uint].
  pose proof (DecimalPos.Unsigned.to_uint_nonnil p) as Hnil.
  destruct (Pos.to_uint p); [contradiction|..]; reflexivity.
Qed.

Lemma str_neg p :
  Py.str (Zneg p) = String "-" (NilEmpty.string_of_uint (Pos.to_uint p)).
Proof.
  unfold Py.str. cbn [Z.to_int NilZero.string_of_int NilZero.string_of_uint].
  pose proof (DecimalPos.Unsigned.to_uint_nonnil p) as Hnil.
  destruct (Pos.to_uint p); [contradiction|..]; reflexivity.
Qed.

(** The decimal text of an integer: never empty, digits and a sign only. *)
Lemma str_chars n :
  Py.is_empty (Py.str n) = false /\ all_chars is_int_char (Py.str n) = true.
Proof.
  destruct n as [|p|p].
  - split; reflexivity.
  - rewrite str_pos. destruct (pos_text p) as (c & r & -> & Hc & Hr).
    split; [reflexivity|]. cbn [all_chars]. unfold is_int_char at 1. rewrite Hc.
    apply (all_chars_impl Py.is_digit); [|exact Hr].
    intros c' H. unfold is_int_char. rewrite H. reflexivity.
  - rewrite str_neg. split; [reflexivity|]. cbn [all_chars].
    apply (all_chars_impl Py.is_digit); [|apply uint_text_digits].
    intros c' H. unfold is_int_char. rewrite H. reflexivity.
Qed.

Lemma lstrip_id s :
  all_chars (fun c => negb (Py.is_space c)) s = true -> Py.lstrip s = s.
Proof.
  destruct s as [|c r]; [reflexivity|]. cbn [all_chars Py.lstrip]. intros H.
  apply andb_true_iff in H. destruct H as [Hc _].
  destruct (Py.is_space c); [discriminate|reflexivity].
Qed.

Lemma rstrip_id s :
  all_chars (fun c => negb (Py.is_space c)) s = true -> Py.rstrip s = s.
Proof.
  induction s as [|c r IH]; [reflexivity|]. cbn [all_chars Py.rstrip]. intros H.
  apply andb_true_iff in H. destruct H as [Hc Hr]. rewrite (IH Hr).
  destruct r; [|reflexivity]. destruct (Py.is_space c); [discriminate|reflexivity].
Qed.

Lemma strip_id s :
  all_chars (fun c => negb (Py.is_space c)) s = true -> Py.strip s = s.
Proof. intros H. unfold Py.strip. rewrite (lstrip_id s H). apply rstrip_id, H. Qed.

Lemma strip_str n : Py.strip (Py.str n) = Py.str n.
Proof.
  apply strip_id. apply (all_chars_impl is_int_char); [|apply str_chars].
  intros c H. rewrite (int_char_not_space c H). reflexivity.
Qed.

Lemma int_of_digit_first c r :
  Py.is_digit c = true ->
  Py.strip (String c r) = String c r ->
  Py.int (String c r) = Py.int_digits 0 false (String c r).
Proof.
  intros Hc Hs. unfold Py.int. rewrite Hs.
  destruct c as [[|] [|] [|] [|] [|] [|] [|] [|]]; try reflexivity; discriminate Hc.
Qed.

(** [int(str(n)) == n] *)
Lemma int_str n : Py.int (Py.str n) = Some n.
Proof.
  pose proof (strip_str n) as Hs.
  destruct n as [|p|p].
  - reflexivity.
  - rewrite str_pos in Hs |- *.
    destruct (pos_text p) as (c & r & E & Hc & Hr). rewrite E in Hs.
    rewrite E, (int_of_digit_first c r Hc Hs), <- E.
    rewrite digits_of_uint by (right; apply DecimalPos.Unsigned.to_uint_nonnil).
    rewrite DecimalPos.Unsigned.of_to. reflexivity.
  - rewrite str_neg in Hs |- *. unfold Py.int. rewrite Hs.
    rewrite digits_of_uint by (right; apply DecimalPos.Unsigned.to_uint_nonnil).
    rewrite DecimalPos.Unsigned.of_to. reflexivity.
Qed.

Lemma split_no_sep sep x :
  all_chars (fun c => negb (Ascii.eqb c sep)) x = true -> Py.split sep x = [x].
Proof.
  induction x as [|c r IH]; [reflexivity|]. cbn [all_chars Py.split]. intros H.
  apply andb_true_iff in H. destruct H as [Hc Hr]. rewrite (IH Hr).
  destruct (Ascii.eqb c sep); [discriminate|reflexivity].
Qed.

Lemma split_app_sep sep x r :
  all_chars (fun c => negb (Ascii.eqb c sep)) x = true ->
  Py.split sep (x ++ String sep r) = x :: Py.split sep r.
Proof.
  induction x as [|c x IH]; cbn [all_chars append Py.split]; intros H.
  - rewrite Ascii.eqb_refl. reflexivity.
  - apply andb_true_iff in H. destruct H as [Hc Hx]. rewrite (IH Hx).
    destruct (Ascii.eqb c sep); [discriminate|reflexivity].
Qed.

(** [sep.join(parts).split(sep) == parts] for parts without the separator. *)
Lemma split_join sep parts :
  parts <> [] ->
  Forall (fun x => all_chars (fun c => negb (Ascii.eqb c sep)) x = true) parts ->
  Py.split sep (Py.join (String sep EmptyString) parts) = parts.
Proof.
  intros Hne Hall. induction Hall as [|x rest Hx Hrest IH]; [contradiction|].
  destruct rest as [|y rest].
  - apply split_no_sep, Hx.
  - change (Py.join (String sep EmptyString) (x :: y :: rest))
      with (x ++ String sep (Py.join (String sep EmptyString) (y :: rest)))%string.
    rewrite (split_app_sep sep x _ Hx), IH by discriminate. reflexivity.
Qed.

Lemma parse_ints_strs l : parse_ints (map Py.str l) = inr l.
Proof.
  induction l as [|n l IH]; [reflexivity|]. cbn [map parse_ints].
  rewrite strip_str, (proj1 (str_chars n)), int_str, IH. reflexivity.
Qed.

Lemma parse_ints_joined l :
  parse_ints (Py.split "," (Py.join "," (map Py.str l))) = inr l.
Proof.
  destruct l as [|n l]; [reflexivity|].
  rewrite split_join.
  - apply parse_ints_strs.
  - discriminate.
  - apply Forall_forall. intros x Hx. apply in_map_iff in Hx. destruct Hx as (m & <- & _).
    apply (all_chars_impl is_int_char); [|apply str_chars].
    intros c H. rewrite (int_char_not_comma c H). reflexivity.
Qed.

Lemma last_items_spec {A} n (l : list A) :
  exists before,
    l = before ++ Py.last_items n l
    /\ List.length (Py.last_items n l) = Nat.min n (List.length l).
Proof.
  unfold Py.last_items. exists (firstn (List.length l - n) l). split.
  - symmetry. apply firstn_skipn.
  - rewrite length_skipn. lia.
Qed.

End Texts.

(** ** More properties of the operations *)

Section Coverage.

Variable env : Env.

Lemma maybe_notify_sent s w :
  enabled (get_notify (cfg w)) = Some true ->
  Py.is_empty (webhook_of w) = false ->
  urlopen env (webhook_of w) (alert_of env s w) = None ->
  _maybe_notify env s w
  = (inr tt,
     set_log_file
       (log_file w ++ [log_line env (clock w) "Notification sent (Discord)."])
       (set_outbox (outbox w ++ [(webhook_of w, alert_of env s w)]) w)).
Proof.
  unfold webhook_of, alert_of. intros Hen Hurl Hnet.
  unfold _maybe_notify, bind, gets, ret, try_except, post_discord, modify, raise.
  rewrite Hen, Hurl. cbn [negb]. rewrite Hnet. reflexivity.
Qed.

(** What one run of the dispatcher adds: at most one line, at most one POST. *)
Lemma maybe_notify_adds s w :
  exists lines posts,
    _maybe_notify env s w
    = (inr tt,
       mkWorld (clock w) (cfg w) (vars w) (config_file w) (state_file w) (lock_file w)
               (incident_file w) (log_file w ++ lines) (outbox w ++ posts) (dashboard w))
    /\ (List.length lines <= 1)%nat
    /\ (posts = [] \/ posts = [(webhook_of w, alert_of env s w)]).
Proof.
  destruct (enabled (get_notify (cfg w))) as [[|]|] eqn:Hen.
  - destruct (Py.is_empty (webhook_of w)) eqn:Hurl.
    + exists [log_line env (clock w) "Notify enabled but webhook empty."], [].
      rewrite (maybe_notify_blank env s w Hen Hurl), app_nil_r.
      split; [destruct w; reflexivity|]. split; [cbn; lia|left; reflexivity].
    + destruct (urlopen env (webhook_of w) (alert_of env s w)) as [e|] eqn:Hnet.
      * eexists [_], [_]. rewrite (maybe_notify_failed env e s w Hen Hurl Hnet).
        split; [reflexivity|]. split; [cbn; lia|right; reflexivity].
      * eexists [_], [_]. rewrite (maybe_notify_sent s w Hen Hurl Hnet).
        split; [reflexivity|]. split; [cbn; lia|right; reflexivity].
  - exists [], []. rewrite maybe_notify_disabled by (rewrite Hen; discriminate).
    rewrite !app_nil_r. split; [destruct w; reflexivity|]. split; [cbn; lia|left; reflexivity].
  - exists [], []. rewrite maybe_notify_disabled by (rewrite Hen; discriminate).
    rewrite !app_nil_r. split; [destruct w; reflexivity|]. split; [cbn; lia|left; reflexivity].
Qed.

(** "Record Start Attempt" that stays below the threshold. *)
Lemma refresh_status_below w :
  lock_file w = false ->
  locks_now true w = false ->
  let now := clock w in
  let c := cfg w in
  let s := compute_status c (ledger w ++ [now]) now false in
  let lg := log_file w ++ [log_line env now "Recorded start attempt (UI)."] in
  refresh_status env true w
  = (inr s,
     mkWorld now c (vars w) (config_file w) (Some (timestamps s)) false
             (incident_file w) lg (outbox w) (Some (mkDashboard s (tail_file lg 80)))).
Proof.
  unfold locks_now.
  destruct w as [now c v cf sf lf inc lg ob db];
    cbn [lock_file clock cfg]; intros ->. cbn [andb negb]. intros Hbelow.
  unfold ledger, log_line in Hbelow |- *. cbn [state_file] in Hbelow |- *.
  run_guard. rewrite !timestamps_compute_status, Hbelow. reflexivity.
Qed.

(** Every call of [refresh_status], in one equation: [lines] is what it
    appends to the audit log, [posts] what it sends. *)
Lemma refresh_status_effects record w :
  let now := clock w in
  let c := cfg w in
  let read := if record && negb (lock_file w) then ledger w ++ [now] else ledger w in
  let locks := locks_now record w in
  let s := compute_status c read now (lock_file w || locks) in
  exists lines posts,
    refresh_status env record w
    = (inr s,
       mkWorld now c (vars w) (config_file w) (Some (timestamps s)) (lock_file w || locks)
               (if locks then Some (make_incident env c s now) else incident_file w)
               (log_file w ++ lines) (outbox w ++ posts)
               (Some (mkDashboard s (tail_file (log_file w ++ lines) 80))))
    /\ (List.length posts <= 1)%nat
    /\ (locks = false -> posts = [])
    /\ (record && negb (lock_file w) = false -> lines = [])
    /\ (record && negb (lock_file w) = true ->
        exists more, lines = log_line env now "Recorded start attempt (UI)." :: more).
Proof.
  cbv zeta.
  assert (Hanalyze :
    forall w0, locks_now false w0 = false
      /\ refresh_status env false w0
         = (inr (compute_status (cfg w0) (ledger w0) (clock w0) (lock_file w0 || false)),
            mkWorld (clock w0) (cfg w0) (vars w0) (config_file w0)
              (Some (timestamps (compute_status (cfg w0) (ledger w0) (clock w0)
                                                (lock_file w0 || false))))
              (lock_file w0 || false) (incident_file w0) (log_file w0 ++ []) (outbox w0 ++ [])
              (Some (mkDashboard (compute_status (cfg w0) (ledger w0) (clock w0)
                                                 (lock_file w0 || false))
                                 (tail_file (log_file w0 ++ []) 80))))).
  { intros w0. split; [reflexivity|].
    rewrite !app_nil_r, orb_false_r. destruct w0; reflexivity. }
  destruct record; cbn [andb].
  - destruct (lock_file w) eqn:Hlock; cbn [negb orb].
    + assert (Hl : locks_now true w = false) by (unfold locks_now; rewrite Hlock; reflexivity).
      rewrite Hl, (refresh_status_locked env w Hlock).
      destruct (Hanalyze w) as [_ Hrun]. rewrite Hlock in Hrun. cbn [orb] in Hrun.
      exists [], []. rewrite Hrun.
      split; [reflexivity|]. split; [cbn; lia|]. split; [reflexivity|].
      split; [reflexivity|discriminate].
    + destruct (locks_now true w) eqn:Hl.
      * assert (Htrip : get_max_attempts (cfg w)
                        <= attempt_count (compute_status (cfg w) (ledger w ++ [clock w])
                                                         (clock w) true)).
        { unfold locks_now in Hl. rewrite Hlock in Hl. cbn [andb negb] in Hl.
          rewrite attempt_count_compute_status. apply Z.leb_le, Hl. }
        rewrite (refresh_status_trips env w Hlock Htrip). cbv zeta.
        destruct (maybe_notify_adds
                    (compute_status (cfg w) (ledger w ++ [clock w]) (clock w) true)
                    (locking_world env w)) as (lines & posts & -> & Hlines & Hposts).
        unfold locking_world.
        cbn [snd set_dashboard clock cfg vars config_file state_file lock_file
             incident_file log_file outbox dashboard].
        rewrite <- app_assoc. cbn [app].
        eexists _, posts. split; [reflexivity|].
        split; [destruct Hposts as [->| ->]; cbn; lia|].
        split; [discriminate|]. split; [discriminate|].
        intros _. eexists. reflexivity.
      * rewrite (refresh_status_below w Hlock Hl). cbv zeta.
        eexists [_], []. rewrite app_nil_r. split; [reflexivity|].
        split; [cbn; lia|]. split; [reflexivity|]. split; [discriminate|].
        intros _. eexists. reflexivity.
  - destruct (Hanalyze w) as [Hl Hrun]. rewrite Hl, Hrun. exists [], [].
    split; [reflexivity|]. split; [cbn; lia|]. split; [reflexivity|].
    split; [reflexivity|discriminate].
Qed.


(** *** What a call may touch *)


(** X2. The status a call returns agrees with the marker it leaves: the
    state is LOCKED exactly when the marker exists after the call; the
    dashboard shows that status; and a recording call whose status is not
    LOCKED has counted fewer attempts than the threshold. *)
Theorem status_agrees_with_marker (record : bool) (w : World) :
  exists s w',
    refresh_status env record w = (inr s, w')
    /\ (state s = LOCKED <-> lock_file w' = true)
    /\ option_map shown (dashboard w') = Some s
    /\ (record = true -> state s <> LOCKED -> attempt_count s < get_max_attempts (cfg w)).
Proof.
  destruct (refresh_status_effects record w) as (lines & posts & Hrun & _).
  cbv zeta in Hrun. eexists _, _. split; [exact Hrun|].
  cbn [lock_file dashboard option_map shown].
  rewrite state_compute_status, attempt_count_compute_status.
  split; [|split; [reflexivity|]].
  - destruct (lock_file w || locks_now record w); [tauto|].
    split; [|discriminate].
    destruct (Z.max 1 (get_max_attempts (cfg w) - 1) <=? _); discriminate.
  - intros -> Hstate. unfold locks_now in *. cbn [andb] in *.
    destruct (lock_file w); cbn [orb negb andb] in *; [congruence|].
    destruct (get_max_attempts (cfg w) <=? _) eqn:E; [congruence|].
    apply Z.leb_gt in E. exact E.
Qed.


(** *** Runs of button presses *)

(** One press, spelled out: what it appends, what it sends, and what it
    does to the marker and to the ledger. *)
Lemma press_step now op w :
  exists w' lines posts,
    at_time now (press env op) w = (inr tt, w')
    /\ cfg w' = cfg w
    /\ config_file w' = config_file w
    /\ log_file w' = log_file w ++ lines
    /\ outbox w' = outbox w ++ posts
    /\ (List.length posts <= 1)%nat
    /\ (op <> RecordAttempt -> posts = [])
    /\ lock_file w'
       = match op with
         | Unlock => false
         | RecordAttempt => lock_file w || locks_now true (set_clock now w)
         | _ => lock_file w
         end
    /\ ledger w'
       = match op with
         | Analyze => windowed (get_window (cfg w)) now (ledger w)
         | RecordAttempt =>
             windowed (get_window (cfg w)) now
                      (if lock_file w then ledger w else ledger w ++ [now])
         | Unlock =>
             if lock_file w then windowed (get_window (cfg w)) now (ledger w) else ledger w
         | ClearHistory confirm => if confirm then [] else ledger w
         end.
Proof.
  destruct op as [| | |confirm].
  - destruct (refresh_status_effects false (set_clock now w))
      as (lines & posts & Hrun & Hposts & Hquiet & Hsilent & _).
    cbv zeta in Hrun. rewrite (Hquiet eq_refl), (Hsilent eq_refl) in Hrun.
    change (at_time now (press env Analyze) w)
      with ((_ <- refresh_status env false ;; ret tt) (set_clock now w)).
    unfold bind. rewrite Hrun. eexists _, [], [].
    split; [reflexivity|]. cbn [cfg config_file log_file outbox lock_file ledger state_file].
    rewrite timestamps_compute_status, orb_false_r.
    repeat split; try reflexivity. cbn; lia.
  - destruct (refresh_status_effects true (set_clock now w))
      as (lines & posts & Hrun & Hposts & _).
    cbv zeta in Hrun.
    change (at_time now (press env RecordAttempt) w)
      with ((_ <- refresh_status env true ;; ret tt) (set_clock now w)).
    unfold bind. rewrite Hrun. eexists _, lines, posts.
    split; [reflexivity|]. cbn [cfg config_file log_file outbox lock_file ledger state_file
                                 set_clock clock andb].
    rewrite timestamps_compute_status.
    repeat split; try reflexivity; try assumption; try congruence.
    destruct (lock_file w); reflexivity.
  - change (at_time now (press env Unlock) w)
      with ((_ <- unlock env ;; ret tt) (set_clock now w)).
    unfold bind. destruct (lock_file w) eqn:Hlock.
    + rewrite (unlock_present env (set_clock now w) Hlock). eexists _, [_], [].
      split; [reflexivity|].
      cbn [cfg config_file log_file outbox lock_file ledger state_file set_clock clock].
      rewrite timestamps_compute_status, app_nil_r.
      repeat split; try reflexivity. cbn; lia.
    + rewrite (unlock_absent env (set_clock now w) Hlock). exists (set_clock now w), [], [].
      split; [reflexivity|].
      cbn [cfg config_file log_file outbox lock_file set_clock].
      rewrite !app_nil_r. repeat split; try reflexivity; try (cbn; lia). exact Hlock.
  - change (at_time now (press env (ClearHistory confirm)) w)
      with ((_ <- clear_history env confirm ;; ret tt) (set_clock now w)).
    unfold bind. destruct confirm.
    + rewrite clear_history_run. eexists _, [_], [].
      split; [reflexivity|].
      cbn [cfg config_file log_file outbox lock_file ledger state_file set_clock clock].
      rewrite timestamps_compute_status, app_nil_r.
      repeat split; try reflexivity. cbn; lia.
    + exists (set_clock now w), [], [].
      split; [reflexivity|].
      cbn [cfg config_file log_file outbox lock_file set_clock].
      rewrite !app_nil_r. repeat split; try reflexivity; cbn; lia.
Qed.

Lemma run_cons now op rest w w1 :
  at_time now (press env op) w = (inr tt, w1) ->
  run env ((now, op) :: rest) w = run env rest w1.
Proof. intros H. cbn [run]. unfold bind at 1. rewrite H. reflexivity. Qed.

(** X3. The marker is removed by "Unlock" only and created by "Record
    Start Attempt" only: through any presses without an Unlock a marker
    stays, and through any presses without a Record no marker appears. *)
Theorem marker_lifecycle (schedule : list (Z * Op)) (w : World) :
  (lock_file w = true ->
   Forall (fun call => snd call <> Unlock) schedule ->
   lock_file (world_after (run env schedule w)) = true)
  /\ (lock_file w = false ->
      Forall (fun call => snd call <> RecordAttempt) schedule ->
      lock_file (world_after (run env schedule w)) = false).
Proof.
  revert w. induction schedule as [|[now op] rest IH]; intros w.
  - split; intros H _; exact H.
  - destruct (press_step now op w)
      as (w1 & lines & posts & Hrun & _ & _ & _ & _ & _ & _ & Hlock & _).
    rewrite (run_cons _ _ rest _ _ Hrun).
    split; intros Hw Hall; inversion Hall as [|? ? Hop Hrest]; subst; cbn [snd] in Hop.
    + apply (proj1 (IH w1)); [|exact Hrest].
      rewrite Hlock, Hw. destruct op; try reflexivity. congruence.
    + apply (proj2 (IH w1)); [|exact Hrest].
      rewrite Hlock, Hw. destruct op; try reflexivity. congruence.
Qed.

(** X4. As long as nobody unlocks, the ledger holds at most
    [max_attempts] entries, and fewer while there is no marker: recording
    stops growing it once the threshold is reached. *)
Theorem ledger_bounded_without_unlock (schedule : list (Z * Op)) (w : World) :
  1 <= get_max_attempts (cfg w) ->
  Forall (fun call => snd call <> Unlock) schedule ->
  Z.of_nat (List.length (ledger w)) <= get_max_attempts (cfg w) ->
  (lock_file w = false -> Z.of_nat (List.length (ledger w)) < get_max_attempts (cfg w)) ->
  let w' := world_after (run env schedule w) in
  Z.of_nat (List.length (ledger w')) <= get_max_attempts (cfg w)
  /\ (lock_file w' = false -> Z.of_nat (List.length (ledger w')) < get_max_attempts (cfg w)).
Proof.
  intros HM. revert w HM.
  induction schedule as [|[now op] rest IH]; intros w HM Hall Hle Hlt; [auto|].
  destruct (press_step now op w)
    as (w1 & lines & posts & Hrun & Hcfg & _ & _ & _ & _ & _ & Hlock & Hled).
  cbv zeta. rewrite (run_cons _ _ rest _ _ Hrun).
  inversion Hall as [|? ? Hop Hrest]; subst; cbn [snd] in Hop.
  rewrite <- Hcfg. apply IH; rewrite ?Hcfg; try assumption.
  - rewrite Hled. destruct op as [| | |confirm].
    + pose proof (filter_length_le (fun t => now - t <=? get_window (cfg w)) (ledger w)).
      unfold windowed. lia.
    + destruct (lock_file w) eqn:Hl.
      * pose proof (filter_length_le (fun t => now - t <=? get_window (cfg w)) (ledger w)).
        unfold windowed. lia.
      * pose proof (filter_length_le (fun t => now - t <=? get_window (cfg w))
                                     (ledger w ++ [now])) as Hf.
        rewrite length_app in Hf. cbn [List.length] in Hf. specialize (Hlt eq_refl).
        unfold windowed. lia.
    + congruence.
    + destruct confirm; [cbn; lia | exact Hle].
  - rewrite Hlock, Hled. destruct op as [| | |confirm].
    + intros Hl. specialize (Hlt Hl).
      pose proof (filter_length_le (fun t => now - t <=? get_window (cfg w)) (ledger w)).
      unfold windowed. lia.
    + destruct (lock_file w) eqn:Hl; cbn [orb]; [discriminate|].
      unfold locks_now. cbn [andb negb lock_file set_clock cfg clock]. rewrite Hl.
      cbn [negb]. unfold ledger at 1. cbn [state_file set_clock]. fold (ledger w).
      intros Hbelow. apply Z.leb_gt in Hbelow. exact Hbelow.
    + congruence.
    + destruct confirm; [intros _; cbn; lia | exact Hlt].
Qed.



(** *** Unlocking, clearing, odd thresholds *)

Lemma windowed_none window now h :
  Forall (fun t => window < now - t) h -> windowed window now h = [].
Proof.
  unfold windowed. induction 1 as [|t h Ht _ IH]; [reflexivity|]. cbn [filter].
  apply Z.leb_gt in Ht. rewrite Ht. exact IH.
Qed.

(** X6. "Unlock" removes the marker but keeps the history: when the
    pruned ledger together with the next attempt still reaches the
    threshold, the first "Record Start Attempt" after the unlock locks
    again at once. *)
Theorem unlock_then_record_relocks (now1 now2 : Z) (w : World) :
  lock_file w = true ->
  get_max_attempts (cfg w)
  <= Z.of_nat (List.length
                 (windowed (get_window (cfg w)) now2
                           (windowed (get_window (cfg w)) now1 (ledger w) ++ [now2]))) ->
  exists w1 s w2,
    at_time now1 (unlock env) w = (inr (ShowInfo "Unlocked" "Lock removed."), w1)
    /\ lock_file w1 = false
    /\ recordAttempt env now2 w1 = (inr s, w2)
    /\ state s = LOCKED
    /\ lock_file w2 = true.
Proof.
  intros Hlock Hcount.
  eexists. unfold at_time at 1, bind at 1, modify at 1.
  rewrite (unlock_present env (set_clock now1 w) Hlock). cbv zeta.
  cbn [cfg ledger clock set_clock state_file].
  rewrite timestamps_compute_status.
  match goal with
  | |- exists s w2, (_, ?w1) = _ /\ _ =>
      destruct (recordAttempt_unlocked env now2 w1 eq_refl) as (lg & ob & Hrun)
  end.
  cbv zeta in Hrun. cbn [cfg ledger state_file] in Hrun.
  change (ledger (set_clock now1 w)) with (ledger w) in Hrun.
  apply Z.leb_le in Hcount. rewrite Hcount in Hrun.
  eexists _, _. split; [reflexivity|]. split; [reflexivity|].
  split; [exact Hrun|]. split; reflexivity.
Qed.

(** X7. "Clear History": answered no, nothing changes and no box is shown;
    answered yes, the ledger is empty, one line is logged, and marker,
    incident and outbox are as before, so a locked guard stays locked: the
    dashboard shows a count of 0 with LOCKED when the marker exists and OK
    when it does not, never WARNING. *)
Theorem clear_history_keeps_lock (w : World) :
  clear_history env false w = (inr None, w)
  /\ exists s w',
      clear_history env true w
      = (inr (Some (ShowInfo "Cleared" "Attempt history cleared.")), w')
      /\ state_file w' = Some []
      /\ lock_file w' = lock_file w
      /\ incident_file w' = incident_file w
      /\ outbox w' = outbox w
      /\ log_file w' = log_file w ++ [log_line env (clock w) "History cleared (UI)."]
      /\ option_map shown (dashboard w') = Some s
      /\ attempt_count s = 0
      /\ state s = if lock_file w then LOCKED else OK.
Proof.
  split; [reflexivity|]. eexists _, _. split; [apply clear_history_run|].
  cbn [state_file lock_file incident_file outbox log_file dashboard option_map shown].
  rewrite timestamps_compute_status, attempt_count_compute_status, state_compute_status.
  unfold windowed. cbn [filter List.length Z.of_nat].
  repeat split; try reflexivity.
  destruct (lock_file w); [reflexivity|].
  assert (E : (Z.max 1 (get_max_attempts (cfg w) - 1) <=? 0) = false) by (apply Z.leb_gt; lia).
  change (Z.of_nat (List.length (filter (fun t => clock w - t <=? get_window (cfg w)) [])))
    with 0.
  rewrite E. reflexivity.
Qed.

(** X8. A threshold of 0 or less locks on the first recorded attempt
    whatever the window and the history, and so does a threshold of 1 with
    a window that is not negative. *)
Theorem low_threshold_locks_at_once (now : Z) (w : World) :
  lock_file w = false ->
  get_max_attempts (cfg w) <= 0
  \/ (get_max_attempts (cfg w) <= 1 /\ 0 <= get_window (cfg w)) ->
  exists s w',
    recordAttempt env now w = (inr s, w')
    /\ state s = LOCKED
    /\ lock_file w' = true
    /\ incident_file w' = Some (make_incident env (cfg w) s now).
Proof.
  intros Hlock Hlow.
  destruct (recordAttempt_unlocked env now w Hlock) as (lg & ob & Hrun). cbv zeta in Hrun.
  assert (E : (get_max_attempts (cfg w)
               <=? Z.of_nat (List.length (windowed (get_window (cfg w)) now (ledger w ++ [now]))))
              = true).
  { apply Z.leb_le. destruct Hlow as [H0|[H1 Hw]]; [lia|].
    rewrite windowed_app, length_app. unfold windowed at 2. cbn [filter].
    replace (now - now <=? get_window (cfg w)) with true by (symmetry; apply Z.leb_le; lia).
    cbn [List.length]. lia. }
  rewrite E in Hrun. eexists _, _. split; [exact Hrun|].
  split; [reflexivity|]. split; reflexivity.
Qed.

(** X9. With a negative window an attempt is pruned by the very call that
    records it: when no entry of the ledger lies in the future and the
    threshold is at least 1, the call persists an empty ledger, counts 0,
    returns OK and creates no marker. *)
Theorem negative_window_never_locks (now : Z) (w : World) :
  lock_file w = false ->
  get_window (cfg w) < 0 ->
  1 <= get_max_attempts (cfg w) ->
  Forall (fun t => t <= now) (ledger w) ->
  exists s w',
    recordAttempt env now w = (inr s, w')
    /\ state_file w' = Some []
    /\ attempt_count s = 0
    /\ state s = OK
    /\ lock_file w' = false.
Proof.
  intros Hlock Hneg HM Hpast.
  destruct (recordAttempt_unlocked env now w Hlock) as (lg & ob & Hrun). cbv zeta in Hrun.
  assert (E : windowed (get_window (cfg w)) now (ledger w ++ [now]) = []).
  { apply windowed_none, Forall_forall. intros t Ht.
    apply in_app_or in Ht. destruct Ht as [Ht|[<-|[]]]; [|lia].
    rewrite Forall_forall in Hpast. specialize (Hpast t Ht). lia. }
  rewrite E in Hrun. cbn [List.length Z.of_nat] in Hrun.
  assert (E0 : (get_max_attempts (cfg w) <=? 0) = false) by (apply Z.leb_gt; lia).
  rewrite E0 in Hrun. eexists _, _. split; [exact Hrun|].
  cbn [state_file lock_file].
  rewrite attempt_count_compute_status, state_compute_status, E.
  cbn [List.length Z.of_nat].
  assert (E1 : (Z.max 1 (get_max_attempts (cfg w) - 1) <=? 0) = false) by (apply Z.leb_gt; lia).
  rewrite E1. auto.
Qed.

(** X10. The incident written by the call that locks is a snapshot of
    that call: state LOCKED, the clock reading of the call, the attempts
    exactly as persisted in the ledger, their number as the count, a count
    that has reached the threshold, the host, and the extra context of the
    configuration whether notifications are enabled or not. *)
Theorem incident_is_snapshot (w : World) :
  locks_now true w = true ->
  exists s w' i,
    refresh_status env true w = (inr s, w')
    /\ incident_file w' = Some i
    /\ inc_state i = LOCKED
    /\ inc_timestamp i = clock w
    /\ inc_time i = iso env (clock w)
    /\ state_file w' = Some (inc_attempt_timestamps i)
    /\ inc_attempt_count i = Z.of_nat (List.length (inc_attempt_timestamps i))
    /\ inc_max_attempts i <= inc_attempt_count i
    /\ inc_max_attempts i = get_max_attempts (cfg w)
    /\ inc_window_seconds i = get_window (cfg w)
    /\ inc_host i = (hostname env, fqdn env)
    /\ inc_automationz i = get_extra (get_notify (cfg w)).
Proof.
  intros Hl.
  destruct (refresh_status_effects true w) as (lines & posts & Hrun & _).
  cbv zeta in Hrun. rewrite Hl, orb_true_r in Hrun.
  eexists _, _, _. split; [exact Hrun|]. split; [reflexivity|].
  cbn [state_file make_incident inc_state inc_timestamp inc_time inc_attempt_timestamps
       inc_attempt_count inc_max_attempts inc_window_seconds inc_host inc_automationz].
  rewrite attempt_count_compute_status, timestamps_compute_status.
  unfold locks_now in Hl. apply andb_true_iff in Hl. destruct Hl as [Hrec Hcount].
  rewrite Hrec. apply Z.leb_le in Hcount.
  repeat split; try reflexivity. exact Hcount.
Qed.


(** *** The dispatcher and what it posts *)


Lemma length_substring n m s :
  String.length (substring n m s) = Nat.min m (String.length s - n).
Proof.
  revert n m. induction s as [|c s IH]; intros n m.
  - destruct n, m; reflexivity.
  - destruct n as [|n].
    + destruct m as [|m]; [reflexivity|]. cbn [substring String.length].
      rewrite IH, Nat.sub_0_r. reflexivity.
    + cbn [substring String.length Nat.sub]. apply IH.
Qed.

Lemma length_last_chars n s :
  String.length (Py.last_chars n s) = Nat.min n (String.length s).
Proof. unfold Py.last_chars. rewrite length_substring. lia. Qed.

Lemma truthy_not_empty o : truthy o <> Some EmptyString.
Proof.
  destruct o as [[|c r]|]; cbn [truthy Py.is_empty]; discriminate.
Qed.

(** X12. Whatever the dispatcher posts is bounded and clean: the webhook
    it posts to is not empty; the alert carries the message, count and
    window of the status and the host name; the log excerpt, when there is
    one, has between 1 and 1500 characters; and server, host and notes are
    left out rather than sent empty. *)
Theorem posted_alert_is_bounded (s : Status) (w : World) :
  exists w' posts,
    _maybe_notify env s w = (inr tt, w')
    /\ outbox w' = outbox w ++ posts
    /\ Forall (fun post =>
                 Py.is_empty (fst post) = false
                 /\ alert_reason (snd post) = message s
                 /\ alert_attempts (snd post) = attempt_count s
                 /\ alert_window (snd post) = window_seconds s
                 /\ alert_host (snd post) = hostname env
                 /\ match alert_log_lines (snd post) with
                    | Some excerpt => (1 <= String.length excerpt <= 1500)%nat
                    | None => True
                    end
                 /\ alert_server (snd post) <> Some EmptyString
                 /\ alert_server_host (snd post) <> Some EmptyString
                 /\ alert_notes (snd post) <> Some EmptyString)
              posts.
Proof.
  assert (Hgood :
    Py.is_empty (webhook_of w) = false ->
    Forall (fun post =>
              Py.is_empty (fst post) = false
              /\ alert_reason (snd post) = message s
              /\ alert_attempts (snd post) = attempt_count s
              /\ alert_window (snd post) = window_seconds s
              /\ alert_host (snd post) = hostname env
              /\ match alert_log_lines (snd post) with
                 | Some excerpt => (1 <= String.length excerpt <= 1500)%nat
                 | None => True
                 end
              /\ alert_server (snd post) <> Some EmptyString
              /\ alert_server_host (snd post) <> Some EmptyString
              /\ alert_notes (snd post) <> Some EmptyString)
           [(webhook_of w, alert_of env s w)]).
  { intros Hurl. constructor; [|constructor]. cbn [fst snd].
    split; [exact Hurl|]. unfold alert_of.
    cbn [alert_reason alert_attempts alert_window alert_host alert_log_lines
         alert_server alert_server_host alert_notes].
    repeat split; try reflexivity; try apply truthy_not_empty.
    destruct (tail_file _ _) as [|c r] eqn:E; cbn [Py.is_empty]; [exact I|].
    rewrite length_last_chars. cbn [String.length]. lia. }
  destruct (enabled (get_notify (cfg w))) as [[|]|] eqn:Hen.
  - destruct (Py.is_empty (webhook_of w)) eqn:Hurl.
    + eexists _, []. split; [exact (maybe_notify_blank env s w Hen Hurl)|].
      cbn [outbox set_log_file]. rewrite app_nil_r. split; [reflexivity|constructor].
    + destruct (urlopen env (webhook_of w) (alert_of env s w)) as [e|] eqn:Hnet.
      * eexists _, _. split; [exact (maybe_notify_failed env e s w Hen Hurl Hnet)|].
        split; [reflexivity|]. exact (Hgood eq_refl).
      * eexists _, _. split; [exact (maybe_notify_sent s w Hen Hurl Hnet)|].
        split; [reflexivity|]. exact (Hgood eq_refl).
  - exists w, []. rewrite maybe_notify_disabled by (rewrite Hen; discriminate).
    rewrite app_nil_r. split; [reflexivity|]. split; [reflexivity|constructor].
  - exists w, []. rewrite maybe_notify_disabled by (rewrite Hen; discriminate).
    rewrite app_nil_r. split; [reflexivity|]. split; [reflexivity|constructor].
Qed.


(** *** Saving and reloading the configuration *)

(** X13. [save_cfg] is all or nothing and never raises.  It shows
    "Saved" exactly when threshold, window and every non-blank backoff entry
    are integers; then memory and file hold the same configuration, with the
    entries stored as entered, the webhook stripped, and the file names, the
    number of log lines and the extra context kept.  Otherwise it shows
    "Save failed" and the world is as before.  The guard's own files are
    never touched. *)
Theorem save_cfg_all_or_nothing (w : World) :
  exists d w',
    save_cfg env w = (inr d, w')
    /\ state_file w' = state_file w /\ lock_file w' = lock_file w
    /\ incident_file w' = incident_file w /\ log_file w' = log_file w
    /\ outbox w' = outbox w
    /\ match Py.int (Py.strip (var_max (vars w))),
             Py.int (Py.strip (var_window (vars w))),
             parse_ints (Py.split "," (var_backoff (vars w))) with
       | Some max_a, Some win_s, inr backoff =>
           d = ShowInfo "Saved" "Config saved."
           /\ config_file w' = Some (cfg w')
           /\ cfg_max_attempts (cfg w') = Some max_a
           /\ cfg_time_window_seconds (cfg w') = Some win_s
           /\ cfg_backoff_seconds (cfg w') = Some backoff
           /\ enabled (get_notify (cfg w')) = Some (var_notify_enabled (vars w))
           /\ discord_webhook_url (get_notify (cfg w')) = Some (Py.strip (var_webhook (vars w)))
           /\ include_last_lines (get_notify (cfg w')) = include_last_lines (get_notify (cfg w))
           /\ extra_context (get_notify (cfg w')) = extra_context (get_notify (cfg w))
           /\ cfg_state_file (cfg w') = cfg_state_file (cfg w)
           /\ cfg_lock_file (cfg w') = cfg_lock_file (cfg w)
           /\ cfg_incident_file (cfg w') = cfg_incident_file (cfg w)
           /\ cfg_log_file (cfg w') = cfg_log_file (cfg w)
       | _, _, _ =>
           (exists text, d = ShowError "Save failed" text) /\ w' = w
       end.
Proof.
  rewrite save_cfg_run. cbv zeta.
  destruct (Py.int (Py.strip (var_max (vars w)))) as [max_a|].
  2: { eexists _, _. split; [reflexivity|]. repeat split; eexists; reflexivity. }
  destruct (Py.int (Py.strip (var_window (vars w)))) as [win_s|].
  2: { eexists _, _. split; [reflexivity|]. repeat split; eexists; reflexivity. }
  destruct (parse_ints (Py.split "," (var_backoff (vars w)))) as [bad|backoff].
  { eexists _, _. split; [reflexivity|]. repeat split; eexists; reflexivity. }
  eexists _, _. split; [reflexivity|]. repeat split.
Qed.

(** X14. Saving what "Reload Config" has just put into the entry fields
    always succeeds and keeps the thresholds: the threshold, the window and
    the backoff list the guard works with are the same before and after,
    now stored explicitly, and notifications stay on or off. *)
Theorem reload_then_save_keeps_thresholds (w : World) :
  vars w = form_of_cfg (cfg w) ->
  exists w',
    save_cfg env w = (inr (ShowInfo "Saved" "Config saved."), w')
    /\ config_file w' = Some (cfg w')
    /\ cfg_max_attempts (cfg w') = Some (get_max_attempts (cfg w))
    /\ cfg_time_window_seconds (cfg w') = Some (get_window (cfg w))
    /\ cfg_backoff_seconds (cfg w') = Some (get_backoff (cfg w))
    /\ get_max_attempts (cfg w') = get_max_attempts (cfg w)
    /\ get_window (cfg w') = get_window (cfg w)
    /\ get_backoff (cfg w') = get_backoff (cfg w)
    /\ enabled (get_notify (cfg w'))
       = Some (match enabled (get_notify (cfg w)) with Some b => b | None => false end).
Proof.
  intros Hvars. rewrite save_cfg_run, Hvars. cbv zeta.
  cbn [form_of_cfg var_max var_window var_backoff var_notify_enabled var_webhook].
  rewrite !strip_str, !int_str, parse_ints_joined.
  eexists. split; [reflexivity|]. repeat split.
Qed.

(** *** Pruning and the tail of the log *)

Lemma windowed_later window now1 now2 h :
  now1 <= now2 ->
  windowed window now2 (windowed window now1 h) = windowed window now2 h.
Proof.
  intros Hle. unfold windowed. induction h as [|t h IH]; [reflexivity|]. cbn [filter].
  destruct (now1 - t <=? window) eqn:E1; cbn [filter].
  - rewrite IH. reflexivity.
  - rewrite IH. apply Z.leb_gt in E1.
    replace (now2 - t <=? window) with false by (symmetry; apply Z.leb_gt; lia).
    reflexivity.
Qed.

(** X15. Eager pruning loses nothing: an "Analyze Only" at an earlier
    clock reading does not change what a later one reports. The status and
    the persisted ledger after analysing at [now1] and then at [now2] are
    those of analysing at [now2] alone. *)
Theorem earlier_analyze_is_harmless (now1 now2 : Z) (w : World) :
  now1 <= now2 ->
  exists s1 w1 s2 w2,
    analyze env now1 w = (inr s1, w1)
    /\ analyze env now2 w1 = (inr s2, w2)
    /\ returned (analyze env now2 w) = Some s2
    /\ state_file (world_after (analyze env now2 w)) = state_file w2.
Proof.
  intros Hle. eexists _, _, _, _. split; [apply analyze_run|].
  split; [apply analyze_run|]. rewrite analyze_run.
  cbn [returned world_after fst snd cfg lock_file state_file ledger
       set_dashboard set_state_file set_clock].
  rewrite !timestamps_compute_status.
  rewrite <- (compute_status_windowed (cfg w) (windowed _ now1 _)), windowed_later by exact Hle.
  rewrite compute_status_windowed. split; reflexivity.
Qed.

(** X16. [tail_file] gives nothing for [n <= 0]; for a positive [n] it
    joins, with newlines, the last [n] lines of the log, all of them when
    the log has fewer. *)
Theorem tail_file_shows_last_lines (lines : list string) (n : Z) :
  exists before shown,
    lines = before ++ shown
    /\ List.length shown = Nat.min (Z.to_nat n) (List.length lines)
    /\ tail_file lines n
       = if n <=? 0 then EmptyString else Py.join (String "010" EmptyString) shown.
Proof.
  destruct (last_items_spec (Z.to_nat n) lines) as (before & Hsplit & Hlen).
  exists before, (Py.last_items (Z.to_nat n) lines).
  split; [exact Hsplit|]. split; [exact Hlen|].
  unfold tail_file. destruct (n <=? 0); [reflexivity|]. cbn [orb].
  destruct lines; reflexivity.
Qed.

(** *** While the marker exists *)

Lemma record_each_locked times :
  forall w,
    lock_file w = true ->
    exists ss w',
      record_each env times w = (inr ss, w')
      /\ List.length ss = List.length times
      /\ Forall (fun s => state s = LOCKED) ss
      /\ lock_file w' = true
      /\ cfg w' = cfg w
      /\ log_file w' = log_file w
      /\ outbox w' = outbox w
      /\ incident_file w' = incident_file w
      /\ incl (ledger w') (ledger w).
Proof.
  induction times as [|now rest IH]; intros w Hlock.
  - exists [], w. repeat split; auto. apply incl_refl.
  - pose proof (recordAttempt_locked env now w Hlock) as Hrun.
    rewrite analyze_run in Hrun. cbv zeta in Hrun.
    match type of Hrun with _ = (_, ?w1) =>
      destruct (IH w1 Hlock) as (ss & w' & Hrest & Hlen & Hall & Hl & Hcfg & Hlog & Hout & Hinc & Hincl)
    end.
    cbn [record_each]. unfold bind at 1. rewrite Hrun. unfold bind, ret. rewrite Hrest.
    eexists _, w'. split; [reflexivity|].
    split; [cbn [List.length]; rewrite Hlen; reflexivity|].
    split; [constructor; [rewrite state_compute_status, Hlock; reflexivity|exact Hall]|].
    split; [exact Hl|]. split; [exact Hcfg|]. split; [exact Hlog|].
    split; [exact Hout|]. split; [exact Hinc|].
    intros t Ht. apply Hincl in Ht. cbn [ledger state_file set_dashboard set_state_file] in Ht.
    rewrite timestamps_compute_status in Ht. apply windowed_In in Ht. exact (proj1 Ht).
Qed.

(** X17. A locked guard is silent however often it is called: every
    [recordAttempt] returns LOCKED, the marker stays, nothing is logged or
    posted, the incident is not rewritten, and the ledger only loses
    entries. *)
Theorem locked_guard_is_silent (times : list Z) (w : World) :
  lock_file w = true ->
  exists ss w',
    record_each env times w = (inr ss, w')
    /\ List.length ss = List.length times
    /\ Forall (fun s => state s = LOCKED) ss
    /\ lock_file w' = true
    /\ log_file w' = log_file w
    /\ outbox w' = outbox w
    /\ incident_file w' = incident_file w
    /\ incl (ledger w') (ledger w).
Proof.
  intros Hlock.
  destruct (record_each_locked times w Hlock)
    as (ss & w' & Hrun & Hlen & Hall & Hl & _ & Hlog & Hout & Hinc & Hincl).
  exists ss, w'. repeat split; assumption.
Qed.

(** X18. One lock, one alert: over any series of [recordAttempt] calls,
    from any world, at most one POST is attempted, and none if the marker
    was there from the start. *)
Theorem at_most_one_post_per_lock (times : list Z) (w : World) :
  exists ss w' posts,
    record_each env times w = (inr ss, w')
    /\ outbox w' = outbox w ++ posts
    /\ (List.length posts <= 1)%nat
    /\ (lock_file w = true -> posts = []).
Proof.
  revert w. induction times as [|now rest IH]; intros w.
  - exists [], w, []. rewrite app_nil_r. repeat split; cbn; lia.
  - destruct (lock_file w) eqn:Hlock.
    + destruct (record_each_locked (now :: rest) w Hlock)
        as (ss & w' & Hrun & _ & _ & _ & _ & _ & Hout & _).
      exists ss, w', []. rewrite app_nil_r. repeat split; auto.
    + destruct (refresh_status_effects true (set_clock now w))
        as (lines & posts & Hrun & Hone & Hquiet & _).
      cbv zeta in Hrun.
      change (refresh_status env true (set_clock now w)) with (recordAttempt env now w) in Hrun.
      cbn [lock_file set_clock] in Hrun. rewrite Hlock in Hrun. cbn [orb] in Hrun.
      cbn [record_each]. unfold bind at 1. rewrite Hrun.
      destruct (locks_now true (set_clock now w)) eqn:Hl.
      * match type of Hrun with _ = (_, ?w1) =>
          destruct (record_each_locked rest w1 eq_refl)
            as (ss & w' & Hrest & _ & _ & _ & _ & _ & Hout & _)
        end.
        unfold bind, ret. rewrite Hrest. eexists _, w', posts.
        split; [reflexivity|]. rewrite Hout. cbn [outbox set_clock].
        repeat split; [exact Hone|discriminate].
      * match type of Hrun with _ = (_, ?w1) =>
          destruct (IH w1) as (ss & w' & posts' & Hrest & Hout & Hone' & _)
        end.
        unfold bind, ret. rewrite Hrest. eexists _, w', posts'.
        split; [reflexivity|]. rewrite Hout. cbn [outbox set_clock].
        rewrite (Hquiet eq_refl), app_nil_r.
        repeat split; [exact Hone'|discriminate].
Qed.


(** X19. WARNING after a recorded attempt means exactly one attempt is
    left: the count is [max_attempts - 1], there is no marker yet, and the
    next [recordAttempt] that still finds those attempts in the window
    locks. *)
Theorem warning_means_one_attempt_left (now : Z) (w : World) :
  exists s w',
    recordAttempt env now w = (inr s, w')
    /\ (state s = WARNING ->
        attempt_count s = get_max_attempts (cfg w) - 1
        /\ lock_file w' = false
        /\ forall now2,
            0 <= get_window (cfg w) ->
            Forall (fun t => now2 - t <= get_window (cfg w)) (timestamps s) ->
            exists s2 w2,
              recordAttempt env now2 w' = (inr s2, w2)
              /\ state s2 = LOCKED
              /\ lock_file w2 = true).
Proof.
  destruct (lock_file w) eqn:Hlock.
  - rewrite (recordAttempt_locked env now w Hlock), analyze_run. cbv zeta.
    eexists _, _. split; [reflexivity|].
    rewrite state_compute_status, Hlock. discriminate.
  - destruct (recordAttempt_unlocked env now w Hlock) as (lg & ob & Hrun). cbv zeta in Hrun.
    eexists _, _. split; [exact Hrun|].
    rewrite state_compute_status, attempt_count_compute_status, timestamps_compute_status.
    cbn [lock_file].
    destruct (get_max_attempts (cfg w) <=? _) eqn:Etrip; [discriminate|].
    destruct (Z.max 1 (get_max_attempts (cfg w) - 1) <=? _) eqn:Ewarn; [|discriminate].
    intros _. apply Z.leb_gt in Etrip. apply Z.leb_le in Ewarn.
    split; [lia|]. split; [reflexivity|].
    intros now2 Hw Hkept.
    match goal with
    | |- exists s2 w2, recordAttempt env now2 ?w1 = _ /\ _ =>
        destruct (recordAttempt_unlocked env now2 w1 eq_refl) as (lg2 & ob2 & Hrun2)
    end.
    cbv zeta in Hrun2. cbn [cfg ledger state_file] in Hrun2.
    rewrite (windowed_run _ _ _ Hw Hkept), length_app in Hrun2. cbn [List.length] in Hrun2.
    assert (E : (get_max_attempts (cfg w)
                 <=? Z.of_nat (List.length (windowed (get_window (cfg w)) now (ledger w ++ [now]))
                               + 1)) = true) by (apply Z.leb_le; lia).
    rewrite E in Hrun2. eexists _, _. split; [exact Hrun2|]. split; reflexivity.
Qed.

End Coverage.

(** *** Instances of the further properties *)

Lemma marker_lifecycle_witness :
  lock_file (world_after (run offline_env [(120, RecordAttempt); (130, ClearHistory true)]
                              locked_world)) = true
  /\ lock_file (world_after (run offline_env [(10, Analyze); (20, Unlock)]
                                 (fresh_world default_cfg))) = false.
Proof.
  split.
  - apply (proj1 (marker_lifecycle offline_env
                    [(120, RecordAttempt); (130, ClearHistory true)] locked_world)).
    + reflexivity.
    + repeat (apply Forall_cons; [discriminate|]). apply Forall_nil.
  - apply (proj2 (marker_lifecycle offline_env [(10, Analyze); (20, Unlock)]
                    (fresh_world default_cfg))).
    + reflexivity.
    + repeat (apply Forall_cons; [discriminate|]). apply Forall_nil.
Defined.

Lemma ledger_bounded_without_unlock_witness :
  Z.of_nat (List.length (ledger (world_after (run offline_env busy_morning
                                                  (fresh_world default_cfg))))) <= 3
  /\ (lock_file (world_after (run offline_env busy_morning (fresh_world default_cfg))) = false ->
      Z.of_nat (List.length (ledger (world_after (run offline_env busy_morning
                                                      (fresh_world default_cfg))))) < 3).
Proof.
  apply (ledger_bounded_without_unlock offline_env busy_morning (fresh_world default_cfg)).
  - apply Z.leb_le; reflexivity.
  - repeat (apply Forall_cons; [discriminate|]). apply Forall_nil.
  - apply Z.leb_le; reflexivity.
  - intros _. apply Z.ltb_lt; reflexivity.
Defined.

Lemma unlock_then_record_relocks_witness :
  exists w1 s w2,
    at_time 200 (unlock offline_env) locked_world
    = (inr (ShowInfo "Unlocked" "Lock removed."), w1)
    /\ lock_file w1 = false
    /\ recordAttempt offline_env 210 w1 = (inr s, w2)
    /\ state s = LOCKED
    /\ lock_file w2 = true.
Proof.
  apply (unlock_then_record_relocks offline_env 200 210 locked_world).
  - reflexivity.
  - apply Z.leb_le; reflexivity.
Defined.

Lemma low_threshold_locks_at_once_witness :
  exists s w',
    recordAttempt offline_env 7 (fresh_world zero_threshold_cfg) = (inr s, w')
    /\ state s = LOCKED
    /\ lock_file w' = true
    /\ incident_file w' = Some (make_incident offline_env zero_threshold_cfg s 7).
Proof.
  apply (low_threshold_locks_at_once offline_env 7 (fresh_world zero_threshold_cfg)).
  - reflexivity.
  - left. apply Z.leb_le; reflexivity.
Defined.

Lemma negative_window_never_locks_witness :
  exists s w',
    recordAttempt offline_env 20 negative_window_world = (inr s, w')
    /\ state_file w' = Some []
    /\ attempt_count s = 0
    /\ state s = OK
    /\ lock_file w' = false.
Proof.
  apply (negative_window_never_locks offline_env 20 negative_window_world).
  - reflexivity.
  - apply Z.ltb_lt; reflexivity.
  - apply Z.leb_le; reflexivity.
  - repeat (apply Forall_cons; [apply Z.leb_le; reflexivity|]). apply Forall_nil.
Defined.

Lemma incident_is_snapshot_witness :
  exists s w' i,
    refresh_status offline_env true (set_clock 100 two_attempts_world) = (inr s, w')
    /\ incident_file w' = Some i
    /\ inc_state i = LOCKED
    /\ inc_timestamp i = 100
    /\ inc_time i = "epoch 100"
    /\ state_file w' = Some (inc_attempt_timestamps i)
    /\ inc_attempt_count i = Z.of_nat (List.length (inc_attempt_timestamps i))
    /\ inc_max_attempts i <= inc_attempt_count i
    /\ inc_max_attempts i = 3
    /\ inc_window_seconds i = 300
    /\ inc_host i = ("dayz-host", "dayz-host.lan")
    /\ inc_automationz i = mkExtra (Some "THE LONG HUNT") (Some EmptyString) (Some EmptyString).
Proof.
  apply (incident_is_snapshot offline_env (set_clock 100 two_attempts_world)).
  reflexivity.
Defined.


Lemma reload_then_save_keeps_thresholds_witness :
  exists w',
    save_cfg offline_env reloaded_world = (inr (ShowInfo "Saved" "Config saved."), w')
    /\ config_file w' = Some (cfg w')
    /\ cfg_max_attempts (cfg w') = Some 3
    /\ cfg_time_window_seconds (cfg w') = Some 300
    /\ cfg_backoff_seconds (cfg w') = Some [0; 60; 180; 300].
Proof.
  destruct (reload_then_save_keeps_thresholds offline_env reloaded_world eq_refl)
    as (w' & Hrun & Hfile & Hmax & Hwin & Hback & _).
  exists w'. split; [exact Hrun|]. split; [exact Hfile|]. split; [exact Hmax|].
  split; [exact Hwin|exact Hback].
Defined.

Lemma earlier_analyze_is_harmless_witness :
  exists s1 w1 s2 w2,
    analyze offline_env 250 two_attempts_world = (inr s1, w1)
    /\ analyze offline_env 320 w1 = (inr s2, w2)
    /\ returned (analyze offline_env 320 two_attempts_world) = Some s2
    /\ state_file (world_after (analyze offline_env 320 two_attempts_world)) = state_file w2.
Proof.
  apply (earlier_analyze_is_harmless offline_env 250 320 two_attempts_world).
  apply Z.leb_le; reflexivity.
Defined.

Lemma locked_guard_is_silent_witness :
  exists ss w',
    record_each offline_env [120; 130; 500] locked_world = (inr ss, w')
    /\ List.length ss = 3%nat
    /\ Forall (fun s => state s = LOCKED) ss
    /\ lock_file w' = true
    /\ log_file w' = []
    /\ outbox w' = []
    /\ incident_file w' = None
    /\ incl (ledger w') [0; 50; 100].
Proof.
  apply (locked_guard_is_silent offline_env [120; 130; 500] locked_world). reflexivity.
Defined.
